(** * Insomnia detection app (app.py): feature derivation, rule-based
      scoring, recommendation tiers and the page flow of [main].

    Python values are modelled as the interpreter has them: [float] is
    IEEE binary64 (Rocq's primitive floats), [int] is [Z], and a [str]
    is the [string] of its UTF-8 bytes, so that the ASCII characters the
    program splits on, removes and compares with stand for themselves.
    What Python decides by the Unicode tables ([str.isalpha],
    [str.strip]) is taken from outside, with [float()] and the
    classifier; see [Externals].
    The pandas frame of [preprocess_input] is a one-row table, kept as an
    ordered association list from column names to cells.  Streamlit calls
    ([st.error], [st.markdown], [st.rerun]) and Python exceptions are
    effects of a small state-and-signal monad, [Script]. *)

From Stdlib Require Import ZArith List String Ascii Bool Lia.
From Stdlib Require Import PrimFloat Uint63 SpecFloat FloatOps FloatAxioms.
Import ListNotations.

Set Warnings "-inexact-float".

Local Open Scope string_scope.
Local Open Scope list_scope.
Local Open Scope Z_scope.

(** ** Python numbers *)

Module Py.

(** [float(n)] for an [int64], [- 2^63 <= n < 2^63]: the nearest
    binary64 value.  The magnitude of a negative [n] fits the 63 bits of
    a primitive integer except at [- 2^63], which is a float itself. *)
Definition float_of_int (z : Z) : float :=
  if z <? 0 then
    if z =? - 2 ^ 63 then (-9223372036854775808)%float
    else PrimFloat.opp (PrimFloat.of_uint63 (Uint63.of_Z (- z)))
  else PrimFloat.of_uint63 (Uint63.of_Z z).

(** numpy's [int64] arithmetic wraps around. *)
Definition wrap64 (z : Z) : Z := (z + 2 ^ 63) mod 2 ^ 64 - 2 ^ 63.

(** ** Python strings *)

(** [c in s] for a one-character [c]. *)
Fixpoint contains (c : ascii) (s : string) : bool :=
  match s with
  | EmptyString => false
  | String a rest => if Ascii.eqb a c then true else contains c rest
  end.

(** [s.count(c)] for a one-character [c]. *)
Fixpoint count (c : ascii) (s : string) : nat :=
  match s with
  | EmptyString => O
  | String a rest => if Ascii.eqb a c then S (count c rest) else count c rest
  end.

(** [s.split(c)]: the pieces between the occurrences of [c]; always at
    least one piece. *)
Fixpoint split (c : ascii) (s : string) : list string :=
  match s with
  | EmptyString => [EmptyString]
  | String a rest =>
      if Ascii.eqb a c then EmptyString :: split c rest
      else match split c rest with
           | [] => [String a EmptyString]
           | p :: ps => String a p :: ps
           end
  end.

(** [s.replace(c, "")]. *)
Fixpoint remove (c : ascii) (s : string) : string :=
  match s with
  | EmptyString => EmptyString
  | String a rest => if Ascii.eqb a c then remove c rest else String a (remove c rest)
  end.

(** The ASCII characters that are white space to [str.isspace]. *)
Definition isspace (a : ascii) : bool :=
  let n := Z.of_nat (nat_of_ascii a) in
  (n =? 32) || ((9 <=? n) && (n <=? 13)) || ((28 <=? n) && (n <=? 31)).

Fixpoint lstrip (s : string) : string :=
  match s with
  | EmptyString => EmptyString
  | String a rest => if isspace a then lstrip rest else s
  end.

Fixpoint rev_onto (s acc : string) : string :=
  match s with
  | EmptyString => acc
  | String a rest => rev_onto rest (String a acc)
  end.

(** [s.strip()] on ASCII text: ASCII white space taken off both ends. *)
Definition ascii_strip (s : string) : string :=
  rev_onto (lstrip (rev_onto (lstrip s) EmptyString)) EmptyString.

(** The letters of ASCII, [A]-[Z] and [a]-[z]. *)
Definition isletter (a : ascii) : bool :=
  let n := Z.of_nat (nat_of_ascii a) in
  ((65 <=? n) && (n <=? 90)) || ((97 <=? n) && (n <=? 122)).

Fixpoint all_letters (s : string) : bool :=
  match s with
  | EmptyString => true
  | String a rest => isletter a && all_letters rest
  end.

(** [s.isalpha()] on ASCII text: non-empty and letters only.  Python's
    own test also accepts the letters beyond ASCII. *)
Definition ascii_isalpha (s : string) : bool :=
  match s with
  | EmptyString => false
  | _ => all_letters s
  end.

(** Truthiness of a [str]: [not s] holds for the empty string. *)
Definition falsy_str (s : string) : bool :=
  match s with EmptyString => true | _ => false end.

End Py.

(** ** The input record

    The dict built by the form (app.py 530-542): eleven keys.  A
    [Blood_Pressure] of [None] is Python's [None]. *)

Record InputRecord := {
  Gender : string;
  Age : Z;
  Occupation : string;
  Sleep_Duration : float;
  Quality_of_Sleep : Z;
  Physical_Activity_Level : Z;
  Stress_Level : Z;
  BMI_Category : string;
  Blood_Pressure : option string;
  Heart_Rate : Z;
  Daily_Steps : Z
}.

(** ** Rule-based scorer (app.py 167-203) *)

(** Lines 169-180: the accumulated score. *)
Definition rule_score (input_data : InputRecord) : Z :=
  let score := 0 in
  let score := if (Sleep_Duration input_data <? 6)%float then score + 2 else score in
  let score := if Quality_of_Sleep input_data <? 5 then score + 2 else score in
  let score := if Stress_Level input_data >? 7 then score + 2 else score in
  let score := if Physical_Activity_Level input_data <? 4 then score + 1 else score in
  let score := if (BMI_Category input_data =? "Obese")%string then score + 1 else score in
  score.

(** Lines 182-203: the score converted into the prediction (0 normal,
    1 insomnia) and the list [[Normal, Insomnia]] of probabilities, kept
    as a pair. *)
Definition score_to_result (score : Z) : Z * (float * float) :=
  if score >=? 6 then (1, (0.1, 0.9)%float)
  else if score =? 5 then (1, (0.25, 0.75)%float)
  else if score =? 4 then (1, (0.4, 0.6)%float)
  else if score =? 3 then (1, (0.55, 0.45)%float)
  else if score =? 2 then (0, (0.7, 0.3)%float)
  else if score =? 1 then (0, (0.8, 0.2)%float)
  else (0, (0.9, 0.1)%float).

Definition predict_insomnia_rule_based (input_data : InputRecord)
  : Z * (float * float) :=
  score_to_result (rule_score input_data).

(** ** Effects: the screen, the session and Python's control signals *)

Inductive Page := home | result | info | credit.

(** [st.session_state]; a key that was never set is [None]. *)
Record SessionState := {
  ss_started : option bool;
  ss_page : option Page;
  ss_input_data : option InputRecord
}.

(** The texts handed to [st.error]. *)
Inductive Message :=
| ErrLoadingModel        (* load_model: "Error loading model: ..." *)
| ErrBPFormat            (* preprocess_input: "... format benar, misal: 120/80" *)
| ErrBPNumeric           (* preprocess_input: "... harus berupa angka ..." *)
| ErrPrediction          (* predict_insomnia: "Error dalam prediksi: ..." *)
| ErrUnknownPrediction   (* display_results: "Hasil prediksi tidak dikenali." *)
| ErrModelUnavailable    (* main: "Model tidak dapat dimuat. ..." *)
| ErrIncomplete          (* main: "Mohon lengkapi semua data ..." *)
| ErrOccupationEmpty     (* main: "Pekerjaan harus diisi!" *)
| ErrOccupationLetters   (* main: "Pekerjaan hanya boleh berisi huruf!" *)
| ErrBPForm              (* main: "Tekanan darah harus diisi dengan format yang benar!" *)
| ErrAge                 (* main: "Usia harus antara 18-100 tahun!" *)
| ErrSleep               (* main: "Durasi tidur harus antara 3-12 jam!" *)
| ErrHeartRate           (* main: "Detak jantung harus antara 40-200 bpm!" *)
| ErrSteps.              (* main: "Langkah harian harus antara 1000-20000 langkah!" *)

(** The six recommendation texts of [display_results]. *)
Inductive Tier :=
| HighRisk       (* "RISIKO TINGGI - Segera Konsultasi Ahli" *)
| ModerateRisk   (* "RISIKO SEDANG - Perlu Perhatian Khusus" *)
| LowRisk        (* "RISIKO RENDAH - Tetap Waspada" *)
| Excellent      (* "KUALITAS TIDUR SANGAT BAIK - Pertahankan Pola Ini" *)
| Good           (* "KUALITAS TIDUR BAIK - Tetap Optimalkan" *)
| Fair.          (* "KUALITAS TIDUR CUKUP - Perlu Perbaikan Ringan" *)

(** What a script run puts on the screen. *)
Inductive Event :=
| Error (m : Message)
| WelcomeScreen
| AppHeader
| SidebarMenu
| FormPage
| InfoPage
| CreditPage
| ResultHeader
| PredictionBox (prediction : Z)
| Probabilities (normal_pct insomnia_pct : float)
| AdviceHeading (prediction : Z)
| Advice (t : Tier) (pct : float).

Inductive Exn := ValueError | KeyError | TypeError | IndexError | ModelError.

(** What ends a computation early: an exception, a [return] of [main],
    or [st.rerun()]. *)
Inductive Signal := Raise (e : Exn) | Return | Rerun.

Record World := {
  session : SessionState;
  screen : list Event
}.

Definition Script (A : Type) : Type := World -> (A + Signal) * World.

Module ScriptMonad.

Definition ret {A} (a : A) : Script A := fun w => (inl a, w).

Definition bind {A B} (m : Script A) (k : A -> Script B) : Script B :=
  fun w =>
    match m w with
    | (inl a, w') => k a w'
    | (inr s, w') => (inr s, w')
    end.

Definition signal {A} (s : Signal) : Script A := fun w => (inr s, w).

Definition raise {A} (e : Exn) : Script A := signal (Raise e).

(** An [option] result of a Python operation: [None] raises [e]. *)
Definition lift {A} (e : Exn) (o : option A) : Script A :=
  match o with
  | Some a => ret a
  | None => raise e
  end.

Definition show (e : Event) : Script unit :=
  fun w => (inl tt, {| session := session w; screen := screen w ++ [e] |}).

Definition st_error (m : Message) : Script unit := show (Error m).

Definition get_session : Script SessionState := fun w => (inl (session w), w).

Definition put_session (s : SessionState) : Script unit :=
  fun w => (inl tt, {| session := s; screen := screen w |}).

(** [try: m except Exception: handler]. *)
Definition try_except {A} (m handler : Script A) : Script A :=
  fun w =>
    match m w with
    | (inr (Raise _), w') => handler w'
    | other => other
    end.

End ScriptMonad.

Import ScriptMonad.

Declare Scope script_scope.
Delimit Scope script_scope with script.
Notation "x <- m ;; k" := (bind m (fun x => k))
  (at level 100, m at next level, right associativity) : script_scope.
Notation "m ;; k" := (bind m (fun _ => k))
  (at level 100, right associativity) : script_scope.
Local Open Scope script_scope.

(** ** The one-row pandas frame *)

Inductive cell :=
| CStr (s : string)
| CInt (z : Z)          (* int64 *)
| CFloat (f : float)    (* float64 *)
| CNone.

Definition DataFrame := list (string * cell).

Module Frame.

(** [df[name]] read. *)
Fixpoint getitem (df : DataFrame) (name : string) : option cell :=
  match df with
  | [] => None
  | (n, c) :: rest => if (n =? name)%string then Some c else getitem rest name
  end.

Definition has_column (df : DataFrame) (name : string) : bool :=
  match getitem df name with Some _ => true | None => false end.

(** [df[name] = c]: an existing column keeps its place, a new one goes
    last. *)
Fixpoint setitem (df : DataFrame) (name : string) (c : cell) : DataFrame :=
  match df with
  | [] => [(name, c)]
  | (n, c') :: rest =>
      if (n =? name)%string then (n, c) :: rest
      else (n, c') :: setitem rest name c
  end.

(** [df.drop(columns=[name])]. *)
Definition drop (df : DataFrame) (name : string) : DataFrame :=
  filter (fun nc => negb (fst nc =? name)%string) df.

(** [df[names]]: the named columns in the order asked for; [None] when
    one of them is absent. *)
Fixpoint select (df : DataFrame) (names : list string) : option DataFrame :=
  match names with
  | [] => Some []
  | n :: rest =>
      match getitem df n, select df rest with
      | Some c, Some cols => Some ((n, c) :: cols)
      | _, _ => None
      end
  end.

(** [Series.map(mapping)] on one cell: a value that is not a key
    becomes NaN. *)
Definition series_map (mapping : list (string * cell)) (c : cell) : cell :=
  match c with
  | CStr s =>
      match getitem mapping s with
      | Some v => v
      | None => CFloat PrimFloat.nan
      end
  | _ => CFloat PrimFloat.nan
  end.

Definition as_float (c : cell) : option float :=
  match c with
  | CInt z => Some (Py.float_of_int z)
  | CFloat f => Some f
  | _ => None
  end.

(** [a / b]: true division, always float64. *)
Definition truediv (a b : cell) : option cell :=
  match as_float a, as_float b with
  | Some x, Some y => Some (CFloat (x / y)%float)
  | _, _ => None
  end.

(** [a * b]: int64 when both are, float64 otherwise. *)
Definition mul (a b : cell) : option cell :=
  match a, b with
  | CInt x, CInt y => Some (CInt (Py.wrap64 (x * y)))
  | _, _ =>
      match as_float a, as_float b with
      | Some x, Some y => Some (CFloat (x * y)%float)
      | _, _ => None
      end
  end.

(** [a + b]. *)
Definition add (a b : cell) : option cell :=
  match a, b with
  | CInt x, CInt y => Some (CInt (Py.wrap64 (x + y)))
  | _, _ =>
      match as_float a, as_float b with
      | Some x, Some y => Some (CFloat (x + y)%float)
      | _, _ => None
      end
  end.

(** [pd.DataFrame([data])]: one column per key, in the dict's order. *)
Definition of_record (data : InputRecord) : DataFrame :=
  [ ("Gender", CStr (Gender data));
    ("Age", CInt (Age data));
    ("Occupation", CStr (Occupation data));
    ("Sleep Duration", CFloat (Sleep_Duration data));
    ("Quality of Sleep", CInt (Quality_of_Sleep data));
    ("Physical Activity Level", CInt (Physical_Activity_Level data));
    ("Stress Level", CInt (Stress_Level data));
    ("BMI Category", CStr (BMI_Category data));
    ("Blood Pressure",
      match Blood_Pressure data with Some s => CStr s | None => CNone end);
    ("Heart Rate", CInt (Heart_Rate data));
    ("Daily Steps", CInt (Daily_Steps data)) ].

End Frame.

(** ** What the program takes from outside

    Python's [float()] on a [str], and the classifier that
    [joblib.load] returns with its two methods; [None] stands for a
    raised exception.  Python's [str.isalpha] and [str.strip], which
    go by the Unicode tables of letters and of white space; of these
    only what holds by ASCII alone is assumed: a non-empty string of
    ASCII letters is alphabetic, and a string holding an ASCII letter
    does not strip to the empty string. *)

Class Externals := {
  py_float : string -> option float;
  py_isalpha : string -> bool;
  py_strip : string -> string;
  Model : Type;
  model_predict : Model -> DataFrame -> option Z;
  model_predict_proba : Model -> DataFrame -> option (float * float);
  py_isalpha_ascii :
    forall s, Py.ascii_isalpha s = true -> py_isalpha s = true;
  py_strip_letter :
    forall s a, Py.contains a s = true -> Py.isletter a = true ->
                py_strip s <> ""
}.

(** ** Feature deriver (app.py 68-116) *)

Definition gender_mapping : list (string * cell) :=
  [ ("Female", CFloat 0%float); ("Male", CFloat 1%float) ].

Definition bmi_mapping : list (string * cell) :=
  [ ("Normal", CInt 0); ("Normal Weight", CInt 0); ("Overweight", CInt 1);
    ("Obese", CInt 2); ("Underweight", CInt 0) ].

Definition expected_columns : list string :=
  [ "Gender"; "Age"; "Sleep Duration"; "Quality of Sleep"; "Physical Activity Level";
    "Stress Level"; "BMI Category"; "Heart Rate"; "Daily Steps";
    "Systolic"; "Diastolic"; "Sleep_Efficiency"; "Stress_Sleep_Interaction";
    "Activity_Efficiency"; "Stress_Sleep_Ratio"; "Sleep_Age_Ratio" ].

Section Deriver.

Context `{Externals}.

Definition column (df : DataFrame) (name : string) : Script cell :=
  lift KeyError (Frame.getitem df name).

(** [float(bp_split[i])]. *)
Definition float_of_part (bp_split : list string) (i : nat) : Script float :=
  part <- lift IndexError (nth_error bp_split i) ;;
  lift ValueError (py_float part).

(** Lines 87-99: the blood pressure split into two columns. *)
Definition split_blood_pressure (df : DataFrame) : Script DataFrame :=
  if Frame.has_column df "Blood Pressure" then
    bp_value <- column df "Blood Pressure" ;;
    match bp_value with
    | CStr s =>
        if Py.falsy_str s || negb (Py.contains "/" s) then
          st_error ErrBPFormat ;; raise ValueError
        else
          let bp_split := Py.split "/" s in
          try_except
            (systolic <- float_of_part bp_split 0 ;;
             let df := Frame.setitem df "Systolic" (CFloat systolic) in
             diastolic <- float_of_part bp_split 1 ;;
             let df := Frame.setitem df "Diastolic" (CFloat diastolic) in
             ret (Frame.drop df "Blood Pressure"))
            (st_error ErrBPNumeric ;; raise ValueError)
    | CNone => st_error ErrBPFormat ;; raise ValueError
    | _ => raise TypeError   (* the record holds a str or None here *)
    end
  else ret df.

Definition preprocess_input (data : InputRecord) : Script DataFrame :=
  let df := Frame.of_record data in
  gender <- column df "Gender" ;;
  let df := Frame.setitem df "Gender" (Frame.series_map gender_mapping gender) in
  bmi <- column df "BMI Category" ;;
  let df := Frame.setitem df "BMI Category" (Frame.series_map bmi_mapping bmi) in
  df <- split_blood_pressure df ;;
  (* Sleep_Efficiency *)
  sleep <- column df "Sleep Duration" ;;
  v <- lift TypeError (Frame.truediv sleep (CInt 24)) ;;
  let df := Frame.setitem df "Sleep_Efficiency" v in
  (* Stress_Sleep_Interaction *)
  stress <- column df "Stress Level" ;;
  quality <- column df "Quality of Sleep" ;;
  v <- lift TypeError (Frame.mul stress quality) ;;
  let df := Frame.setitem df "Stress_Sleep_Interaction" v in
  (* Activity_Efficiency *)
  steps <- column df "Daily Steps" ;;
  activity <- column df "Physical Activity Level" ;;
  d <- lift TypeError (Frame.add activity (CInt 1)) ;;
  v <- lift TypeError (Frame.truediv steps d) ;;
  let df := Frame.setitem df "Activity_Efficiency" v in
  (* Stress_Sleep_Ratio *)
  stress <- column df "Stress Level" ;;
  quality <- column df "Quality of Sleep" ;;
  d <- lift TypeError (Frame.add quality (CInt 1)) ;;
  v <- lift TypeError (Frame.truediv stress d) ;;
  let df := Frame.setitem df "Stress_Sleep_Ratio" v in
  (* Sleep_Age_Ratio *)
  sleep <- column df "Sleep Duration" ;;
  age <- column df "Age" ;;
  d <- lift TypeError (Frame.add age (CInt 1)) ;;
  v <- lift TypeError (Frame.truediv sleep d) ;;
  let df := Frame.setitem df "Sleep_Age_Ratio" v in
  lift KeyError (Frame.select df expected_columns).

(** app.py 153-165: the classifier path; every exception is caught. *)
Definition predict_insomnia (model : Model) (input_data : InputRecord)
  : Script (option Z * option (float * float)) :=
  try_except
    (df_processed <- preprocess_input input_data ;;
     prediction <- lift ModelError (model_predict model df_processed) ;;
     prediction_proba <- lift ModelError (model_predict_proba model df_processed) ;;
     ret (Some prediction, Some prediction_proba))
    (st_error ErrPrediction ;; ret (None, None)).

End Deriver.

(** What the checks of lines 89-98 let through: a non-empty string with
    a "/", whose first two pieces [float()] reads. *)
Definition read_blood_pressure `{Externals} (data : InputRecord)
  : option (float * float) :=
  match Blood_Pressure data with
  | Some s =>
      if Py.falsy_str s || negb (Py.contains "/" s) then None
      else
        match Py.split "/" s with
        | a :: b :: _ =>
            match py_float a, py_float b with
            | Some systolic, Some diastolic => Some (systolic, diastolic)
            | _, _ => None
            end
        | _ => None
        end
  | None => None
  end.

(** The same in words: when [preprocess_input] turns a record down. *)
Definition rejected_blood_pressure `{Externals} (data : InputRecord) : Prop :=
  match Blood_Pressure data with
  | None => True
  | Some s =>
      s = "" \/ Py.contains "/" s = false \/
      (exists a rest, Py.split "/" s = a :: rest /\ py_float a = None) \/
      (exists a b rest, Py.split "/" s = a :: b :: rest /\ py_float b = None)
  end.

(** The frame the code builds once the blood pressure is read. *)
Definition derived_frame (data : InputRecord) (systolic diastolic : float)
  : DataFrame :=
  [ ("Gender", Frame.series_map gender_mapping (CStr (Gender data)));
    ("Age", CInt (Age data));
    ("Sleep Duration", CFloat (Sleep_Duration data));
    ("Quality of Sleep", CInt (Quality_of_Sleep data));
    ("Physical Activity Level", CInt (Physical_Activity_Level data));
    ("Stress Level", CInt (Stress_Level data));
    ("BMI Category", Frame.series_map bmi_mapping (CStr (BMI_Category data)));
    ("Heart Rate", CInt (Heart_Rate data));
    ("Daily Steps", CInt (Daily_Steps data));
    ("Systolic", CFloat systolic);
    ("Diastolic", CFloat diastolic);
    ("Sleep_Efficiency", CFloat (Sleep_Duration data / Py.float_of_int 24)%float);
    ("Stress_Sleep_Interaction",
      CInt (Py.wrap64 (Stress_Level data * Quality_of_Sleep data)));
    ("Activity_Efficiency",
      CFloat (Py.float_of_int (Daily_Steps data)
              / Py.float_of_int (Py.wrap64 (Physical_Activity_Level data + 1)))%float);
    ("Stress_Sleep_Ratio",
      CFloat (Py.float_of_int (Stress_Level data)
              / Py.float_of_int (Py.wrap64 (Quality_of_Sleep data + 1)))%float);
    ("Sleep_Age_Ratio",
      CFloat (Sleep_Duration data
              / Py.float_of_int (Py.wrap64 (Age data + 1)))%float) ].

(** ** Result display and recommendation tiers (app.py 205-312) *)

(** Lines 230-258; Python's [x >= 80] is [80 <= x]. *)
Definition insomnia_tier (insomnia_prob : float) : Tier :=
  if (80 <=? insomnia_prob)%float then HighRisk
  else if (60 <=? insomnia_prob)%float then ModerateRisk
  else LowRisk.

(** Lines 282-309. *)
Definition normal_tier (normal_prob : float) : Tier :=
  if (90 <=? normal_prob)%float then Excellent
  else if (70 <=? normal_prob)%float then Good
  else Fair.

Definition display_results (prediction : Z) (prediction_proba : option (float * float))
  : Script unit :=
  show ResultHeader ;;
  if prediction =? 1 then
    show (PredictionBox 1) ;;
    match prediction_proba with
    | Some proba =>
        let insomnia_prob := (snd proba * 100)%float in
        show (Probabilities (fst proba * 100)%float insomnia_prob) ;;
        show (AdviceHeading 1) ;;
        show (Advice (insomnia_tier insomnia_prob) insomnia_prob)
    | None => show (AdviceHeading 1)
    end
  else if prediction =? 0 then
    show (PredictionBox 0) ;;
    match prediction_proba with
    | Some proba =>
        let normal_prob := (fst proba * 100)%float in
        show (Probabilities normal_prob (snd proba * 100)%float) ;;
        show (AdviceHeading 0) ;;
        show (Advice (normal_tier normal_prob) normal_prob)
    | None => show (AdviceHeading 0)
    end
  else st_error ErrUnknownPrediction.

(** ** The page flow (app.py 58-66 and 358-556) *)

(** The values of the form's widgets. *)
Record FormValues := {
  gender : string;
  age : Z;
  occupation : string;
  sleep_duration : float;
  quality_of_sleep : Z;
  physical_activity : Z;
  stress_level : Z;
  bmi_category : string;
  blood_pressure : string;
  heart_rate : Z;
  daily_steps : Z
}.

(** What the user did before this script run: the button that was
    clicked, if any, and the widget values. *)
Record Widgets := {
  btn_mulai : bool;
  btn_home : bool;
  btn_info : bool;
  btn_credit : bool;
  submit : bool;
  btn_kembali : bool;
  form : FormValues
}.

Definition when (b : bool) (m : Script unit) : Script unit :=
  if b then m else ret tt.

Definition set_started (b : bool) : Script unit :=
  ss <- get_session ;;
  put_session {| ss_started := Some b; ss_page := ss_page ss;
                 ss_input_data := ss_input_data ss |}.

Definition set_page (p : Page) : Script unit :=
  ss <- get_session ;;
  put_session {| ss_started := ss_started ss; ss_page := Some p;
                 ss_input_data := ss_input_data ss |}.

Definition set_input_data (d : InputRecord) : Script unit :=
  ss <- get_session ;;
  put_session {| ss_started := ss_started ss; ss_page := ss_page ss;
                 ss_input_data := Some d |}.

Definition is_none {A} (o : option A) : bool :=
  match o with None => true | Some _ => false end.

(** Lines 530-542: the dict built from the widget values. *)
Definition form_record (f : FormValues) : InputRecord :=
  {| Gender := gender f;
     Age := age f;
     Occupation := occupation f;
     Sleep_Duration := sleep_duration f;
     Quality_of_Sleep := quality_of_sleep f;
     Physical_Activity_Level := physical_activity f;
     Stress_Level := stress_level f;
     BMI_Category := bmi_category f;
     Blood_Pressure := Some (blood_pressure f);
     Heart_Rate := heart_rate f;
     Daily_Steps := daily_steps f |}.

Section App.

Context `{Externals}.

(** Lines 58-66.  [artifact] is what [joblib.load('insomnia.joblib')]
    gives in this process: the classifier, or [None] when it raises. *)
Definition load_model (artifact : option Model) : Script (option Model) :=
  match artifact with
  | Some model => ret (Some model)
  | None => st_error ErrLoadingModel ;; ret None
  end.

(** Lines 492-545: the checks on a submitted form, then the record is
    stored and the result page asked for. *)
Definition submit_form (f : FormValues) : Script unit :=
  when (Py.falsy_str (gender f) || (age f =? 0) || Py.falsy_str (occupation f)
        || (sleep_duration f =? 0)%float || (quality_of_sleep f =? 0)
        || (physical_activity f =? 0) || (stress_level f =? 0)
        || Py.falsy_str (bmi_category f) || Py.falsy_str (blood_pressure f)
        || (heart_rate f =? 0) || (daily_steps f =? 0))
    (st_error ErrIncomplete ;; signal Return) ;;
  when (Py.falsy_str (occupation f) || (py_strip (occupation f) =? "")%string)
    (st_error ErrOccupationEmpty ;; signal Return) ;;
  when (negb (py_isalpha (Py.remove "." (Py.remove "-" (Py.remove " " (occupation f))))))
    (st_error ErrOccupationLetters ;; signal Return) ;;
  when (Py.falsy_str (blood_pressure f) || negb (Py.contains "/" (blood_pressure f)))
    (st_error ErrBPForm ;; signal Return) ;;
  when ((age f <? 18) || (age f >? 100))
    (st_error ErrAge ;; signal Return) ;;
  when ((sleep_duration f <? 3)%float || (12 <? sleep_duration f)%float)
    (st_error ErrSleep ;; signal Return) ;;
  when ((heart_rate f <? 40) || (heart_rate f >? 200))
    (st_error ErrHeartRate ;; signal Return) ;;
  when ((daily_steps f <? 1000) || (daily_steps f >? 20000))
    (st_error ErrSteps ;; signal Return) ;;
  let input_data := form_record f in
  set_input_data input_data ;;
  set_page result ;;
  signal Rerun.

(** Lines 546-556. *)
Definition result_page (artifact : option Model) (ui : Widgets) : Script unit :=
  ss <- get_session ;;
  match ss_input_data ss with
  | Some input_data =>
      model <- load_model artifact ;;
      let '(prediction, prediction_proba) := predict_insomnia_rule_based input_data in
      display_results prediction (Some prediction_proba)
  | None => ret tt
  end ;;
  when (btn_kembali ui) (set_page home ;; signal Rerun).

(** Lines 358-636. *)
Definition main (artifact : option Model) (ui : Widgets) : Script unit :=
  ss <- get_session ;;
  when (is_none (ss_started ss)) (set_started false) ;;
  ss <- get_session ;;
  when (negb (match ss_started ss with Some b => b | None => false end))
    (show WelcomeScreen ;;
     when (btn_mulai ui) (set_started true) ;;
     signal Return) ;;
  show AppHeader ;;
  model <- load_model artifact ;;
  when (is_none model) (st_error ErrModelUnavailable ;; signal Return) ;;
  ss <- get_session ;;
  when (is_none (ss_page ss)) (set_page home) ;;
  show SidebarMenu ;;
  when (btn_home ui) (set_page home) ;;
  when (btn_info ui) (set_page info) ;;
  when (btn_credit ui) (set_page credit) ;;
  ss <- get_session ;;
  match ss_page ss with
  | Some home => show FormPage ;; when (submit ui) (submit_form (form ui))
  | Some result => result_page artifact ui
  | Some info => show InfoPage
  | Some credit => show CreditPage
  | None => ret tt
  end.

(** One execution of the script, from an empty screen. *)
Definition script_run (artifact : option Model) (ui : Widgets) (ss : SessionState)
  : (unit + Signal) * World :=
  main artifact ui {| session := ss; screen := [] |}.

(** The widgets as a rerun sees them: values kept, no button clicked. *)
Definition no_clicks (ui : Widgets) : Widgets :=
  {| btn_mulai := false; btn_home := false; btn_info := false;
     btn_credit := false; submit := false; btn_kembali := false;
     form := form ui |}.

(** One user interaction: a script run and, when it ends in
    [st.rerun()], the run that replaces it. *)
Definition interaction (artifact : option Model) (ui : Widgets) (ss : SessionState)
  : World :=
  match script_run artifact ui ss with
  | (inr Rerun, w) => snd (script_run artifact (no_clicks ui) (session w))
  | (_, w) => w
  end.

End App.

(** ** An instance of the externals, for concrete runs

    [decimal_float] reads plain decimal numerals, digits with at most one
    point, of at most 15 digits: on these Python's [float()] is the
    quotient computed here, and the strings it rejects that are used
    below (empty or with a letter) are rejected by [float()] too.
    [str.isalpha] and [str.strip] are the ASCII versions, which are
    Python's on the ASCII text of the runs below.  The classifier is one
    that always fails. *)

Module Plain.

Definition digit (a : ascii) : option Z :=
  let n := Z.of_nat (nat_of_ascii a) in
  if (48 <=? n) && (n <=? 57) then Some (n - 48) else None.

(** Digits read so far, number of digits after the point (if a point
    was seen), number of digits. *)
Fixpoint scan (s : string) (acc : Z) (frac : option Z) (len : Z)
  : option (Z * Z * Z) :=
  match s with
  | EmptyString =>
      Some (acc, match frac with Some k => k | None => 0 end, len)
  | String a rest =>
      if Ascii.eqb a "." then
        match frac with
        | Some _ => None
        | None => scan rest acc (Some 0) len
        end
      else
        match digit a with
        | Some d =>
            scan rest (10 * acc + d)
                 (match frac with Some k => Some (k + 1) | None => None end)
                 (len + 1)
        | None => None
        end
  end.

Definition decimal_float (s : string) : option float :=
  match scan s 0 None 0 with
  | Some (n, k, len) =>
      if (1 <=? len) && (len <=? 15) then
        Some (Py.float_of_int n / Py.float_of_int (10 ^ k))%float
      else None
  | None => None
  end.

Lemma letter_is_no_space (a : ascii) :
  Py.isletter a = true -> Py.isspace a = false.
Proof.
  unfold Py.isletter, Py.isspace. cbv zeta.
  set (n := Z.of_nat (nat_of_ascii a)). intro Hl.
  apply orb_true_iff in Hl.
  repeat rewrite ?orb_false_iff, ?andb_false_iff, ?Z.eqb_neq, ?Z.leb_gt.
  destruct Hl as [Hl|Hl]; apply andb_true_iff in Hl; destruct Hl as [H1 H2];
    apply Z.leb_le in H1, H2; repeat split; lia.
Qed.

Lemma contains_lstrip (a : ascii) (s : string) :
  Py.isletter a = true -> Py.contains a (Py.lstrip s) = Py.contains a s.
Proof.
  intro Hl. induction s as [|b s IH]; cbn; [reflexivity|].
  destruct (Py.isspace b) eqn:Hs; [|reflexivity].
  rewrite IH. destruct (Ascii.eqb b a) eqn:Hb; [|reflexivity].
  apply Ascii.eqb_eq in Hb. subst b.
  apply letter_is_no_space in Hl. congruence.
Qed.

Lemma contains_rev_onto (a : ascii) (s acc : string) :
  Py.contains a (Py.rev_onto s acc) = Py.contains a s || Py.contains a acc.
Proof.
  revert acc. induction s as [|b s IH]; intro acc; cbn; [reflexivity|].
  rewrite IH. cbn. now destruct (Ascii.eqb b a), (Py.contains a s).
Qed.

(** A letter is white space on neither end, so it is still there after
    [ascii_strip]. *)
Lemma ascii_strip_letter (s : string) (a : ascii) :
  Py.contains a s = true -> Py.isletter a = true -> Py.ascii_strip s <> "".
Proof.
  intros Hc Hl He.
  assert (Hk : Py.contains a (Py.ascii_strip s) = Py.contains a s).
  { unfold Py.ascii_strip.
    now rewrite !contains_rev_onto, (contains_lstrip a _ Hl), contains_rev_onto,
      (contains_lstrip a _ Hl), !orb_false_r. }
  rewrite He, Hc in Hk. discriminate.
Qed.

#[export] Instance externals : Externals := {
  py_float := decimal_float;
  py_isalpha := Py.ascii_isalpha;
  py_strip := Py.ascii_strip;
  Model := unit;
  model_predict := fun _ _ => None;
  model_predict_proba := fun _ _ => None;
  py_isalpha_ascii := fun s Hs => Hs;
  py_strip_letter := ascii_strip_letter
}.

End Plain.

(** ** The specification's wording, to compare the code with *)

Module Spec.

Definition Normal : Z := 0.
Definition Insomnia : Z := 1.

(** Section 4.2: the table from score to (label, pNormal, pInsomnia);
    it is defined on the non-negative integers. *)
Definition table (score : Z) : option (Z * (float * float)) :=
  if score =? 0 then Some (Normal, (0.90, 0.10)%float)
  else if score =? 1 then Some (Normal, (0.80, 0.20)%float)
  else if score =? 2 then Some (Normal, (0.70, 0.30)%float)
  else if score =? 3 then Some (Insomnia, (0.55, 0.45)%float)
  else if score =? 4 then Some (Insomnia, (0.40, 0.60)%float)
  else if score =? 5 then Some (Insomnia, (0.25, 0.75)%float)
  else if 6 <=? score then Some (Insomnia, (0.10, 0.90)%float)
  else None.

(** Section 4.2: the five triggering conditions, in the order listed,
    and their weights. *)
Definition conditions (r : InputRecord) : list bool :=
  [ (Sleep_Duration r <? 6)%float;
    Quality_of_Sleep r <? 5;
    7 <? Stress_Level r;
    Physical_Activity_Level r <? 4;
    (BMI_Category r =? "Obese")%string ].

Definition weights : list Z := [2; 2; 2; 1; 1].

Fixpoint weighted_sum (ws : list Z) (cs : list bool) : Z :=
  match ws, cs with
  | w :: ws', c :: cs' => (if c then w else 0) + weighted_sum ws' cs'
  | _, _ => 0
  end.

(** Two records that the scorer cannot tell apart. *)
Definition same_scored_fields (r r' : InputRecord) : Prop :=
  Sleep_Duration r = Sleep_Duration r' /\
  Quality_of_Sleep r = Quality_of_Sleep r' /\
  Stress_Level r = Stress_Level r' /\
  Physical_Activity_Level r = Physical_Activity_Level r' /\
  BMI_Category r = BMI_Category r'.

(** Section 4.4: the tier from the probability of the predicted class. *)
Definition tier (label : Z) (proba : float * float) : Tier :=
  if label =? Insomnia then
    let p := snd proba in
    if (0.80 <=? p)%float then HighRisk
    else if (0.60 <=? p)%float then ModerateRisk
    else LowRisk
  else
    let p := fst proba in
    if (0.90 <=? p)%float then Excellent
    else if (0.70 <=? p)%float then Good
    else Fair.

(** Section 3: GenderCode (Female=0, Male=1) and BMICode
    (Normal/NormalWeight/Underweight=0, Overweight=1, Obese=2). *)
Definition GenderCode (g : string) : float :=
  if (g =? "Male")%string then 1%float else 0%float.

Definition BMICode (b : string) : Z :=
  if (b =? "Overweight")%string then 1
  else if (b =? "Obese")%string then 2
  else 0.

(** Section 3: the sixteen columns, in order, for a record whose blood
    pressure reads [systolic/diastolic]. *)
Definition feature_vector (r : InputRecord) (systolic diastolic : float)
  : DataFrame :=
  [ ("Gender", CFloat (GenderCode (Gender r)));
    ("Age", CInt (Age r));
    ("Sleep Duration", CFloat (Sleep_Duration r));
    ("Quality of Sleep", CInt (Quality_of_Sleep r));
    ("Physical Activity Level", CInt (Physical_Activity_Level r));
    ("Stress Level", CInt (Stress_Level r));
    ("BMI Category", CInt (BMICode (BMI_Category r)));
    ("Heart Rate", CInt (Heart_Rate r));
    ("Daily Steps", CInt (Daily_Steps r));
    ("Systolic", CFloat systolic);
    ("Diastolic", CFloat diastolic);
    ("Sleep_Efficiency", CFloat (Sleep_Duration r / 24)%float);
    ("Stress_Sleep_Interaction", CInt (Stress_Level r * Quality_of_Sleep r));
    ("Activity_Efficiency",
      CFloat (Py.float_of_int (Daily_Steps r)
              / Py.float_of_int (Physical_Activity_Level r + 1))%float);
    ("Stress_Sleep_Ratio",
      CFloat (Py.float_of_int (Stress_Level r)
              / Py.float_of_int (Quality_of_Sleep r + 1))%float);
    ("Sleep_Age_Ratio",
      CFloat (Sleep_Duration r / Py.float_of_int (Age r + 1))%float) ].

Section WithExternals.

Context `{Externals}.

(** Section 3: "S/D" with S and D numeric. *)
Definition blood_pressure_reads (r : InputRecord) (systolic diastolic : float)
  : Prop :=
  exists s a b,
    Blood_Pressure r = Some s /\ Py.split "/" s = [a; b] /\
    py_float a = Some systolic /\ py_float b = Some diastolic.

(** Section 3: every field in its domain. *)
Definition valid_record (r : InputRecord) : Prop :=
  (Gender r = "Female" \/ Gender r = "Male") /\
  18 <= Age r <= 100 /\
  Occupation r <> "" /\
  ((3 <=? Sleep_Duration r)%float = true /\
   (Sleep_Duration r <=? 12)%float = true) /\
  1 <= Quality_of_Sleep r <= 10 /\
  1 <= Physical_Activity_Level r <= 10 /\
  1 <= Stress_Level r <= 10 /\
  In (BMI_Category r)
     ["Normal"; "Normal Weight"; "Overweight"; "Obese"; "Underweight"] /\
  (exists systolic diastolic, blood_pressure_reads r systolic diastolic) /\
  40 <= Heart_Rate r <= 200 /\
  1000 <= Daily_Steps r <= 20000.

(** Section 4.1 as worded: the blood pressure is missing, does not
    hold exactly one "/", or a side of it is not a number. *)
Definition malformed_blood_pressure (r : InputRecord) : Prop :=
  match Blood_Pressure r with
  | None => True
  | Some s =>
      s = "" \/ Py.count "/" s <> 1%nat \/
      (exists a b, Py.split "/" s = [a; b] /\
                   (py_float a = None \/ py_float b = None))
  end.

End WithExternals.

(** What the user sees for a risk result: the box, both percentages and
    the advice of the tier of section 4.4. *)
Definition result_screen (res : Z * (float * float)) : list Event :=
  let label := fst res in
  let pNormal := fst (snd res) in
  let pInsomnia := snd (snd res) in
  [ ResultHeader;
    PredictionBox label;
    Probabilities (pNormal * 100)%float (pInsomnia * 100)%float;
    AdviceHeading label;
    Advice (tier label (snd res))
           (if label =? Insomnia then (pInsomnia * 100)%float
            else (pNormal * 100)%float) ].

(** A screen that carries a risk result. *)
Definition shows_result (es : list Event) : Prop :=
  exists label, In (PredictionBox label) es.

(** The tiers of the advice on a screen. *)
Definition advice_shown (es : list Event) : list Tier :=
  flat_map (fun e => match e with Advice t _ => [t] | _ => [] end) es.

(** Sections 3 and 7: a submission that main's checks let through. *)
Definition valid_submission `{Externals} (f : FormValues) : Prop :=
  gender f <> "" /\
  18 <= age f <= 100 /\
  (occupation f <> "" /\
   py_strip (occupation f) <> "" /\
   py_isalpha (Py.remove "." (Py.remove "-" (Py.remove " " (occupation f)))) = true) /\
  ((sleep_duration f =? 0)%float = false /\
   (sleep_duration f <? 3)%float = false /\
   (12 <? sleep_duration f)%float = false) /\
  1 <= quality_of_sleep f <= 10 /\
  1 <= physical_activity f <= 10 /\
  1 <= stress_level f <= 10 /\
  bmi_category f <> "" /\
  Py.contains "/" (blood_pressure f) = true /\
  40 <= heart_rate f <= 200 /\
  1000 <= daily_steps f <= 20000.

(** A session that has left the welcome screen and is on the form. *)
Definition on_form (ss : SessionState) : Prop :=
  ss_started ss = Some true /\
  (ss_page ss = None \/ ss_page ss = Some home).

(** A session on the result page with the record [d] stored. *)
Definition on_result (ss : SessionState) (d : InputRecord) : Prop :=
  ss_started ss = Some true /\
  ss_page ss = Some result /\
  ss_input_data ss = Some d.

(** No menu button of the sidebar was clicked. *)
Definition no_menu_click (ui : Widgets) : Prop :=
  btn_home ui = false /\ btn_info ui = false /\ btn_credit ui = false.

(** Scenario B of section 8, with the defaults it leaves unsaid. *)
Definition scenario_B (r : InputRecord) : Prop :=
  Sleep_Duration r = 7%float /\
  Quality_of_Sleep r = 7 /\
  Stress_Level r = 5 /\
  Physical_Activity_Level r = 5 /\
  Daily_Steps r = 8000 /\
  Age r = 30.

Definition derived_B : DataFrame :=
  [ ("Sleep_Efficiency", CFloat (7 / 24)%float);
    ("Stress_Sleep_Interaction", CInt 35);
    ("Activity_Efficiency", CFloat (8000 / 6)%float);
    ("Stress_Sleep_Ratio", CFloat (5 / 8)%float);
    ("Sleep_Age_Ratio", CFloat (7 / 31)%float) ].

(** Scenario A of section 8, whatever the other fields are. *)
Definition scenario_A (r : InputRecord) : Prop :=
  Sleep_Duration r = 5%float /\
  Quality_of_Sleep r = 4 /\
  Stress_Level r = 8 /\
  Physical_Activity_Level r = 3 /\
  BMI_Category r = "Obese".

End Spec.

(** ** Concrete records *)

Module Examples.

(** Scenario A with the form's defaults for the other fields. *)
Definition record_A : InputRecord :=
  {| Gender := "Female"; Age := 30; Occupation := "Guru";
     Sleep_Duration := 5%float; Quality_of_Sleep := 4;
     Physical_Activity_Level := 3; Stress_Level := 8;
     BMI_Category := "Obese"; Blood_Pressure := Some "120/80";
     Heart_Rate := 80; Daily_Steps := 8000 |}.

(** Scenario B: nothing triggers. *)
Definition record_B : InputRecord :=
  {| Gender := "Female"; Age := 30; Occupation := "Guru";
     Sleep_Duration := 7%float; Quality_of_Sleep := 7;
     Physical_Activity_Level := 5; Stress_Level := 5;
     BMI_Category := "Normal"; Blood_Pressure := Some "120/80";
     Heart_Rate := 80; Daily_Steps := 8000 |}.

(** Scenario B with a stress level of 8. *)
Definition record_B_stressed : InputRecord :=
  {| Gender := "Female"; Age := 30; Occupation := "Guru";
     Sleep_Duration := 7%float; Quality_of_Sleep := 7;
     Physical_Activity_Level := 5; Stress_Level := 8;
     BMI_Category := "Normal"; Blood_Pressure := Some "120/80";
     Heart_Rate := 80; Daily_Steps := 8000 |}.

(** Scenario B as the form sends it: the gender in Indonesian. *)
Definition record_form : InputRecord :=
  {| Gender := "Perempuan"; Age := 30; Occupation := "Guru";
     Sleep_Duration := 7%float; Quality_of_Sleep := 7;
     Physical_Activity_Level := 5; Stress_Level := 5;
     BMI_Category := "Normal"; Blood_Pressure := Some "120/80";
     Heart_Rate := 80; Daily_Steps := 8000 |}.

Definition with_blood_pressure (bp : option string) (r : InputRecord)
  : InputRecord :=
  {| Gender := Gender r; Age := Age r; Occupation := Occupation r;
     Sleep_Duration := Sleep_Duration r; Quality_of_Sleep := Quality_of_Sleep r;
     Physical_Activity_Level := Physical_Activity_Level r;
     Stress_Level := Stress_Level r; BMI_Category := BMI_Category r;
     Blood_Pressure := bp;
     Heart_Rate := Heart_Rate r; Daily_Steps := Daily_Steps r |}.

(** Three numbers where two are asked for. *)
Definition record_three_parts : InputRecord :=
  with_blood_pressure (Some "120/80/60") record_B.

(** Scenario A typed into the form, and the submit button clicked. *)
Definition form_A : FormValues :=
  {| gender := "Perempuan"; age := 30; occupation := "Guru";
     sleep_duration := 5%float; quality_of_sleep := 4; physical_activity := 3;
     stress_level := 8; bmi_category := "Obese"; blood_pressure := "120/80";
     heart_rate := 80; daily_steps := 8000 |}.

Definition submit_A : Widgets :=
  {| btn_mulai := false; btn_home := false; btn_info := false;
     btn_credit := false; submit := true; btn_kembali := false;
     form := form_A |}.

(** The record the form sends for Scenario A. *)
Definition record_A_form : InputRecord := form_record form_A.

(** The back button of the result page clicked. *)
Definition back_click : Widgets :=
  {| btn_mulai := false; btn_home := false; btn_info := false;
     btn_credit := false; submit := false; btn_kembali := true;
     form := form_A |}.

Definition started_session : SessionState :=
  {| ss_started := Some true; ss_page := Some home; ss_input_data := None |}.

Definition result_session : SessionState :=
  {| ss_started := Some true; ss_page := Some result;
     ss_input_data := Some record_A |}.

(** A probability one step below 0.8: Python prints it like this. *)
Definition just_below_080 : float := 0.7999999999999999%float.

(** A record on which exactly the chosen conditions hold. *)
Definition triggering (sleep quality stress activity obese : bool)
  : InputRecord :=
  {| Gender := "Female"; Age := 30; Occupation := "Guru";
     Sleep_Duration := if sleep then 5%float else 7%float;
     Quality_of_Sleep := if quality then 4 else 7;
     Physical_Activity_Level := if activity then 3 else 5;
     Stress_Level := if stress then 8 else 5;
     BMI_Category := if obese then "Obese" else "Normal";
     Blood_Pressure := Some "120/80";
     Heart_Rate := 80; Daily_Steps := 8000 |}.

Definition empty_world : World :=
  {| session := {| ss_started := None; ss_page := None; ss_input_data := None |};
     screen := [] |}.

End Examples.

(** ** Further vocabulary for the statements below *)

Module Facts.

(** The advice a score leads to on the result page. *)
Definition score_tier (score : Z) : Tier :=
  if 6 <=? score then HighRisk
  else if 4 <=? score then ModerateRisk
  else if 3 <=? score then LowRisk
  else if 1 <=? score then Good
  else Excellent.

(** The tiers worded as a risk, and those worded as a sleep quality. *)
Definition risk_tier (t : Tier) : bool :=
  match t with HighRisk | ModerateRisk | LowRisk => true | _ => false end.

(** A world with a given session and nothing on the screen yet. *)
Definition fresh (ss : SessionState) : World :=
  {| session := ss; screen := [] |}.

(** The world [w] with the events [es] added to its screen. *)
Definition shown (w : World) (es : list Event) : World :=
  {| session := session w; screen := screen w ++ es |}.

End Facts.

Module Deriving.

(** A cell a classifier can take: a number, which NaN is too. *)
Definition numeric (c : cell) : bool :=
  match c with
  | CInt _ | CFloat _ => true
  | _ => false
  end.

(** The message that goes with a blood pressure that is turned down:
    line 90 or line 97. *)
Definition rejection_message (data : InputRecord) : Message :=
  match Blood_Pressure data with
  | Some s =>
      if Py.falsy_str s || negb (Py.contains "/" s) then ErrBPFormat
      else ErrBPNumeric
  | None => ErrBPFormat
  end.

Definition with_occupation (o : string) (r : InputRecord) : InputRecord :=
  {| Gender := Gender r; Age := Age r; Occupation := o;
     Sleep_Duration := Sleep_Duration r; Quality_of_Sleep := Quality_of_Sleep r;
     Physical_Activity_Level := Physical_Activity_Level r;
     Stress_Level := Stress_Level r; BMI_Category := BMI_Category r;
     Blood_Pressure := Blood_Pressure r;
     Heart_Rate := Heart_Rate r; Daily_Steps := Daily_Steps r |}.

(** The choices of the form's two select boxes (app.py 476 and 484). *)
Definition gender_options : list string := ["Perempuan"; "Laki-laki"].

Definition bmi_options : list string :=
  ["Normal"; "Normal Weight"; "Overweight"; "Obese"].

End Deriving.

Module Flow.

(** ASCII letters, spaces, hyphens and periods. *)
Definition allowed_in_occupation (a : ascii) : bool :=
  Py.isletter a || Ascii.eqb a " " || Ascii.eqb a "-" || Ascii.eqb a ".".

Fixpoint all_allowed (s : string) : bool :=
  match s with
  | EmptyString => true
  | String a rest => allowed_in_occupation a && all_allowed rest
  end.

Fixpoint has_letter (s : string) : bool :=
  match s with
  | EmptyString => false
  | String a rest => Py.isletter a || has_letter rest
  end.

(** The occupation as line 504 tests it: spaces, hyphens and periods
    taken out. *)
Definition kept (o : string) : string :=
  Py.remove "." (Py.remove "-" (Py.remove " " o)).

(** What holds of a record that came through the checks of lines
    492-528; of its occupation, what lines 499 and 504 tested. *)
Definition checked `{Externals} (d : InputRecord) : Prop :=
  Gender d <> "" /\
  18 <= Age d <= 100 /\
  (Occupation d <> "" /\
   py_strip (Occupation d) <> "" /\
   py_isalpha (kept (Occupation d)) = true) /\
  ((Sleep_Duration d =? 0)%float = false /\
   (Sleep_Duration d <? 3)%float = false /\
   (12 <? Sleep_Duration d)%float = false) /\
  Quality_of_Sleep d <> 0 /\
  Physical_Activity_Level d <> 0 /\
  Stress_Level d <> 0 /\
  BMI_Category d <> "" /\
  (exists s, Blood_Pressure d = Some s /\ Py.contains "/" s = true) /\
  40 <= Heart_Rate d <= 200 /\
  1000 <= Daily_Steps d <= 20000.

(** The record a session holds, if it holds one, came through them. *)
Definition stored_checked `{Externals} (ss : SessionState) : Prop :=
  match ss_input_data ss with
  | Some d => checked d
  | None => True
  end.

(** The page a run renders (lines 413-418): the sidebar buttons in the
    order they are tested, then the page of the session, the form when
    none is set. *)
Definition page_after (ui : Widgets) (pg : option Page) : Page :=
  if btn_credit ui then credit
  else if btn_info ui then info
  else if btn_home ui then home
  else match pg with Some p => p | None => home end.

(** The values the form's widgets can hold (lines 476-487): the choices
    of the select boxes, the bounds of the number inputs and sliders. *)
Definition widget_domain (f : FormValues) : Prop :=
  In (gender f) Deriving.gender_options /\
  18 <= age f <= 100 /\
  ((3 <=? sleep_duration f)%float = true /\
   (sleep_duration f <=? 12)%float = true) /\
  1 <= quality_of_sleep f <= 10 /\
  1 <= physical_activity f <= 10 /\
  1 <= stress_level f <= 10 /\
  In (bmi_category f) Deriving.bmi_options /\
  40 <= heart_rate f <= 200 /\
  1000 <= daily_steps f <= 20000.

End Flow.

Module Session.

(** What the runs keep true of a session: a stored record came through
    the form's checks, and the result page is set only with a record
    stored. *)
Definition well_formed `{Externals} (ss : SessionState) : Prop :=
  Flow.stored_checked ss /\
  (ss_page ss = Some result -> ss_input_data ss <> None).

(** The session a browser starts with: no key set. *)
Definition initial : SessionState :=
  {| ss_started := None; ss_page := None; ss_input_data := None |}.

(** [ss'] holds what [ss] held, or the record of a newer submission. *)
Definition keeps_record (ui : Widgets) (ss ss' : SessionState) : Prop :=
  ss_input_data ss' = ss_input_data ss \/
  (submit ui = true /\ ss_input_data ss' = Some (form_record (form ui))).

(** The session after a series of interactions, the first one first. *)
Fixpoint play `{Externals} (artifact : option Model) (uis : list Widgets)
         (ss : SessionState) : SessionState :=
  match uis with
  | [] => ss
  | ui :: rest => play artifact rest (session (interaction artifact ui ss))
  end.

End Session.

(** ** The scorer as a call on the store (app.py 167-203)

    [predict_insomnia_rule_based] is handed a reference to a dict
    object, the one [main] keeps in the session, and reads it by
    subscripts.  Here the call runs on all it could reach: the dict
    objects by address, the session and the screen. *)

Module Store.

(** A value of the kinds the form puts in the dict. *)
Inductive pyval := PStr (s : string) | PInt (z : Z) | PFloat (x : float) | PNone.

(** A dict object: its items. *)
Definition pydict := list (string * pyval).

Record Memory := {
  objects : nat -> pydict;
  world : World
}.

(** A call: a result or an exception, and the memory it leaves. *)
Definition Call (A : Type) : Type := Memory -> (A + Exn) * Memory.

Definition ret {A} (a : A) : Call A := fun m => (inl a, m).

Definition raise {A} (e : Exn) : Call A := fun m => (inr e, m).

Definition bind {A B} (c : Call A) (k : A -> Call B) : Call B :=
  fun m =>
    match c m with
    | (inl a, m') => k a m'
    | (inr e, m') => (inr e, m')
    end.

Declare Scope call_scope.
Delimit Scope call_scope with call.
Notation "x <- c ;; k" := (bind c (fun x => k))
  (at level 100, c at next level, right associativity) : call_scope.
Local Open Scope call_scope.

Fixpoint lookup (key : string) (d : pydict) : option pyval :=
  match d with
  | [] => None
  | (k, v) :: rest => if (k =? key)%string then Some v else lookup key rest
  end.

(** [d[key]] for the dict [d] at [ref]: [KeyError] without the key. *)
Definition getitem (ref : nat) (key : string) : Call pyval :=
  fun m =>
    match lookup key (objects m ref) with
    | Some v => (inl v, m)
    | None => (inr KeyError, m)
    end.

(** [v < n] and [v > n] for an [int] literal [n] that is a float
    itself: numbers compare by value, [str] and [None] raise. *)
Definition lt (v : pyval) (n : Z) : Call bool :=
  match v with
  | PInt z => ret (z <? n)
  | PFloat x => ret (x <? Py.float_of_int n)%float
  | PStr _ | PNone => raise TypeError
  end.

Definition gt (v : pyval) (n : Z) : Call bool :=
  match v with
  | PInt z => ret (z >? n)
  | PFloat x => ret (Py.float_of_int n <? x)%float
  | PStr _ | PNone => raise TypeError
  end.

(** [v == s] for a [str] literal [s]; it never raises. *)
Definition eq_str (v : pyval) (s : string) : bool :=
  match v with
  | PStr t => (t =? s)%string
  | _ => false
  end.

(** Lines 167-203: [score] is a local, the subscripts are evaluated in
    the order of the [if]s, and the two lists returned are new objects
    of each call, kept here as a pair of values. *)
Definition predict_insomnia_rule_based (input_data : nat)
  : Call (Z * (float * float)) :=
  let score := 0 in
  v <- getitem input_data "Sleep Duration" ;;
  c <- lt v 6 ;;
  let score := if c then score + 2 else score in
  v <- getitem input_data "Quality of Sleep" ;;
  c <- lt v 5 ;;
  let score := if c then score + 2 else score in
  v <- getitem input_data "Stress Level" ;;
  c <- gt v 7 ;;
  let score := if c then score + 2 else score in
  v <- getitem input_data "Physical Activity Level" ;;
  c <- lt v 4 ;;
  let score := if c then score + 1 else score in
  v <- getitem input_data "BMI Category" ;;
  let score := if eq_str v "Obese" then score + 1 else score in
  ret (score_to_result score).

(** The dict [main] builds from the form (lines 530-542). *)
Definition dict_of_record (r : InputRecord) : pydict :=
  [ ("Gender", PStr (Gender r));
    ("Age", PInt (Age r));
    ("Occupation", PStr (Occupation r));
    ("Sleep Duration", PFloat (Sleep_Duration r));
    ("Quality of Sleep", PInt (Quality_of_Sleep r));
    ("Physical Activity Level", PInt (Physical_Activity_Level r));
    ("Stress Level", PInt (Stress_Level r));
    ("BMI Category", PStr (BMI_Category r));
    ("Blood Pressure",
      match Blood_Pressure r with Some s => PStr s | None => PNone end);
    ("Heart Rate", PInt (Heart_Rate r));
    ("Daily Steps", PInt (Daily_Steps r)) ].

(** The keys the scorer reads. *)
Definition scored_keys : list string :=
  ["Sleep Duration"; "Quality of Sleep"; "Stress Level";
   "Physical Activity Level"; "BMI Category"].

(** [m'] holds at [ref] what [m] holds there under the keys [keys];
    everything else may differ. *)
Definition agree (keys : list string) (ref : nat) (m m' : Memory) : Prop :=
  forall key, In key keys ->
              lookup key (objects m' ref) = lookup key (objects m ref).

(** A call that leaves the memory as it found it and whose outcome is
    decided by the items of the dict at [ref] under [keys]. *)
Definition reads_only {A} (keys : list string) (ref : nat) (c : Call A) : Prop :=
  forall m,
    snd (c m) = m /\
    forall m', agree keys ref m m' -> fst (c m') = fst (c m).

(** A memory with the dict of [r] at address 0 and nothing elsewhere. *)
Definition holding (r : InputRecord) (w : World) : Memory :=
  {| objects := fun ref => match ref with O => dict_of_record r | _ => [] end;
     world := w |}.

End Store.

Module MoreExamples.

(** A submission the form's checks let through although its blood
    pressure holds no number. *)
Definition record_words : InputRecord :=
  Examples.with_blood_pressure (Some "abc/def") Examples.record_A.

End MoreExamples.

(** * Theorems *)

(** ** The rule-based scorer *)

Lemma rule_score_weighted (r : InputRecord) :
  rule_score r = Spec.weighted_sum Spec.weights (Spec.conditions r).
Proof.
  unfold rule_score, Spec.conditions, Spec.weights, Spec.weighted_sum.
  rewrite Z.gtb_ltb.
  destruct (Sleep_Duration r <? 6)%float, (Quality_of_Sleep r <? 5),
    (7 <? Stress_Level r), (Physical_Activity_Level r <? 4),
    (BMI_Category r =? "Obese")%string; reflexivity.
Qed.

Lemma rule_score_range (r : InputRecord) : 0 <= rule_score r <= 8.
Proof.
  unfold rule_score.
  destruct (Sleep_Duration r <? 6)%float, (Quality_of_Sleep r <? 5),
    (Stress_Level r >? 7), (Physical_Activity_Level r <? 4),
    (BMI_Category r =? "Obese")%string; cbn; lia.
Qed.

Lemma score_cases (s : Z) :
  0 <= s -> s = 0 \/ s = 1 \/ s = 2 \/ s = 3 \/ s = 4 \/ s = 5 \/ 6 <= s.
Proof. lia. Qed.

Lemma score_to_result_ge6 (s : Z) :
  6 <= s -> score_to_result s = (1, (0.1, 0.9)%float).
Proof.
  intro Hs. unfold score_to_result.
  replace (s >=? 6) with true; [reflexivity|].
  symmetry. rewrite Z.geb_leb. now apply Z.leb_le.
Qed.

Lemma table_ge6 (s : Z) :
  6 <= s -> Spec.table s = Some (Spec.Insomnia, (0.10, 0.90)%float).
Proof.
  intro Hs. unfold Spec.table.
  repeat match goal with
         | |- context [?a =? ?b] => destruct (Z.eqb_spec a b); [lia|]
         end.
  replace (6 <=? s) with true; [reflexivity|].
  symmetry. now apply Z.leb_le.
Qed.

Lemma score_to_result_table (s : Z) :
  0 <= s -> Spec.table s = Some (score_to_result s).
Proof.
  intro Hs.
  destruct (score_cases s Hs) as [->|[->|[->|[->|[->|[->|H6]]]]]];
    try reflexivity.
  rewrite table_ge6, score_to_result_ge6 by assumption. reflexivity.
Qed.

Lemma score_to_result_label (s : Z) :
  0 <= s ->
  (fst (score_to_result s) = Spec.Insomnia <-> 3 <= s) /\
  (fst (score_to_result s) = Spec.Normal <-> s <= 2).
Proof.
  intro Hs.
  destruct (score_cases s Hs) as [->|[->|[->|[->|[->|[->|H6]]]]]];
    try rewrite (score_to_result_ge6 s H6);
    unfold Spec.Insomnia, Spec.Normal; cbn [fst];
    (split; split; intro; try lia; try reflexivity; try discriminate).
  all: try (exfalso; lia).
Qed.

(** Every score from 0 to 8 is the score of some record. *)
Lemma every_score_reached (s : Z) :
  0 <= s <= 8 -> exists r, rule_score r = s.
Proof.
  intro Hs.
  assert (Hc : s = 0 \/ s = 1 \/ s = 2 \/ s = 3 \/ s = 4 \/ s = 5 \/ s = 6
               \/ s = 7 \/ s = 8) by lia.
  destruct Hc as [->|[->|[->|[->|[->|[->|[->|[->| ->]]]]]]]].
  - now exists (Examples.triggering false false false false false).
  - now exists (Examples.triggering false false false true false).
  - now exists (Examples.triggering true false false false false).
  - now exists (Examples.triggering true false false true false).
  - now exists (Examples.triggering true true false false false).
  - now exists (Examples.triggering true true false true false).
  - now exists (Examples.triggering true true true false false).
  - now exists (Examples.triggering true true true true false).
  - now exists (Examples.triggering true true true true true).
Qed.

(** C1: for every input record the scorer's result is the table entry of
    its accumulated score (0: Normal 0.90/0.10, 1: Normal 0.80/0.20,
    2: Normal 0.70/0.30, 3: Insomnia 0.55/0.45, 4: Insomnia 0.40/0.60,
    5: Insomnia 0.25/0.75, 6 and above: Insomnia 0.10/0.90); the score
    lies in 0..8, the label is Insomnia iff the score is at least 3 and
    Normal iff it is at most 2. *)
Theorem scorer_follows_table (r : InputRecord) :
  0 <= rule_score r <= 8 /\
  Spec.table (rule_score r) = Some (predict_insomnia_rule_based r) /\
  (fst (predict_insomnia_rule_based r) = Spec.Insomnia <-> 3 <= rule_score r) /\
  (fst (predict_insomnia_rule_based r) = Spec.Normal <-> rule_score r <= 2).
Proof.
  pose proof (rule_score_range r) as Hr.
  unfold predict_insomnia_rule_based.
  split; [exact Hr|].
  split; [apply score_to_result_table; lia|].
  apply score_to_result_label; lia.
Qed.

(** C2: the score starts at 0 and is the sum of +2 for a sleep duration
    below 6, +2 for a sleep quality below 5, +2 for a stress level above
    7, +1 for a physical activity level below 4 and +1 for the BMI
    category Obese; records that agree on these five fields have the same
    score; Scenario A scores 8 and gives (Insomnia, 0.10, 0.90). *)
Theorem rule_score_is_sum_of_weights :
  (forall r,
      rule_score r =
        (if (Sleep_Duration r <? 6)%float then 2 else 0)
        + (if Quality_of_Sleep r <? 5 then 2 else 0)
        + (if 7 <? Stress_Level r then 2 else 0)
        + (if Physical_Activity_Level r <? 4 then 1 else 0)
        + (if (BMI_Category r =? "Obese")%string then 1 else 0)) /\
  (forall r r', Spec.same_scored_fields r r' -> rule_score r = rule_score r') /\
  (forall r, Spec.scenario_A r ->
             rule_score r = 8 /\
             predict_insomnia_rule_based r = (Spec.Insomnia, (0.10, 0.90)%float)).
Proof.
  split; [|split].
  - intro r. rewrite rule_score_weighted. cbn. lia.
  - intros r r' (Hs & Hq & Ht & Hp & Hb).
    unfold rule_score. now rewrite Hs, Hq, Ht, Hp, Hb.
  - intros r (Hs & Hq & Ht & Hp & Hb).
    unfold predict_insomnia_rule_based, rule_score.
    rewrite Hs, Hq, Ht, Hp, Hb. split; reflexivity.
Qed.

Lemma rule_score_is_sum_of_weights_witness :
  Spec.scenario_A Examples.record_A /\
  rule_score Examples.record_A = 8 /\
  predict_insomnia_rule_based Examples.record_A = (1, (0.1, 0.9)%float).
Proof.
  assert (HA : Spec.scenario_A Examples.record_A) by (repeat split).
  split; [exact HA|].
  exact (proj2 (proj2 rule_score_is_sum_of_weights) Examples.record_A HA).
Defined.

(** C7: for every input record the two probabilities returned by the
    scorer add up to 1.0, exactly in binary64 and so within 1e-9. *)
Theorem probabilities_sum_to_one (r : InputRecord) :
  let proba := snd (predict_insomnia_rule_based r) in
  (fst proba + snd proba)%float = 1%float /\
  (PrimFloat.abs (fst proba + snd proba - 1) <=? 1e-9)%float = true.
Proof.
  unfold predict_insomnia_rule_based, rule_score.
  destruct (Sleep_Duration r <? 6)%float, (Quality_of_Sleep r <? 5),
    (Stress_Level r >? 7), (Physical_Activity_Level r <? 4),
    (BMI_Category r =? "Obese")%string; split; reflexivity.
Qed.

(** C8: when one more of the five conditions holds for a record and the
    other four are as before, the score does not decrease: it grows by
    that condition's weight. *)
Theorem rule_score_monotonic (r r' : InputRecord) (i : nat) :
  (i < 5)%nat ->
  nth i (Spec.conditions r) false = false ->
  nth i (Spec.conditions r') false = true ->
  (forall j, j <> i ->
             nth j (Spec.conditions r) false = nth j (Spec.conditions r') false) ->
  rule_score r' = rule_score r + nth i Spec.weights 0 /\
  rule_score r <= rule_score r'.
Proof.
  intros Hi Hoff Hon Hsame.
  rewrite !rule_score_weighted.
  pose proof (Hsame 0%nat) as H0. pose proof (Hsame 1%nat) as H1.
  pose proof (Hsame 2%nat) as H2. pose proof (Hsame 3%nat) as H3.
  pose proof (Hsame 4%nat) as H4. clear Hsame.
  unfold Spec.conditions in *.
  set (a := (Sleep_Duration r <? 6)%float) in *.
  set (b := Quality_of_Sleep r <? 5) in *.
  set (c := 7 <? Stress_Level r) in *.
  set (d := Physical_Activity_Level r <? 4) in *.
  set (e := (BMI_Category r =? "Obese")%string) in *.
  set (a' := (Sleep_Duration r' <? 6)%float) in *.
  set (b' := Quality_of_Sleep r' <? 5) in *.
  set (c' := 7 <? Stress_Level r') in *.
  set (d' := Physical_Activity_Level r' <? 4) in *.
  set (e' := (BMI_Category r' =? "Obese")%string) in *.
  clearbody a b c d e a' b' c' d' e'.
  destruct i as [|[|[|[|[|i]]]]]; [..|lia];
    cbn [nth] in Hoff, Hon, H0, H1, H2, H3, H4;
    try specialize (H0 ltac:(discriminate));
    try specialize (H1 ltac:(discriminate));
    try specialize (H2 ltac:(discriminate));
    try specialize (H3 ltac:(discriminate));
    try specialize (H4 ltac:(discriminate));
    subst;
    cbn [Spec.weighted_sum Spec.weights nth];
    repeat match goal with
           | x : bool |- _ => destruct x
           end; lia.
Qed.

Lemma rule_score_monotonic_witness :
  rule_score Examples.record_B_stressed = rule_score Examples.record_B + 2 /\
  rule_score Examples.record_B <= rule_score Examples.record_B_stressed.
Proof.
  apply (rule_score_monotonic Examples.record_B Examples.record_B_stressed 2).
  - lia.
  - reflexivity.
  - reflexivity.
  - intros [|[|[|[|[|j]]]]] Hj; try reflexivity. now elim Hj.
Defined.

(** ** The feature deriver *)

Lemma split_without_separator (c : ascii) (s : string) :
  Py.contains c s = false -> Py.split c s = [s].
Proof.
  induction s as [|a s IH]; cbn; [reflexivity|].
  destruct (Ascii.eqb a c); [discriminate|].
  intro Hs. now rewrite (IH Hs).
Qed.

Lemma split_with_separator (c : ascii) (s : string) :
  Py.contains c s = true -> exists a b rest, Py.split c s = a :: b :: rest.
Proof.
  induction s as [|x s IH]; cbn; [discriminate|].
  destruct (Ascii.eqb x c).
  - intros _. destruct (Py.split c s) as [|p ps] eqn:Hsp.
    + destruct s; cbn in Hsp; [discriminate|].
      destruct (Ascii.eqb a c); [discriminate|].
      destruct (Py.split c s); discriminate.
    + now exists EmptyString, p, ps.
  - intro Hs. destruct (IH Hs) as (a & b & rest & ->).
    now exists (String x a), b, rest.
Qed.

Lemma wrap64_small (z : Z) : - 2 ^ 63 <= z < 2 ^ 63 -> Py.wrap64 z = z.
Proof.
  intro Hz. unfold Py.wrap64. rewrite Z.mod_small; lia.
Qed.

Section DeriverFacts.

Context `{Externals}.

Local Opaque Py.wrap64 Py.float_of_int Frame.series_map.

Lemma preprocess_input_accepts (data : InputRecord) (systolic diastolic : float)
      (w : World) :
  read_blood_pressure data = Some (systolic, diastolic) ->
  preprocess_input data w = (inl (derived_frame data systolic diastolic), w).
Proof.
  unfold read_blood_pressure. intro Hbp.
  destruct data as [g a o sd q pa st bmi bp hr ds]; cbn [Blood_Pressure] in Hbp.
  destruct bp as [s|]; [|discriminate].
  destruct (Py.falsy_str s || negb (Py.contains "/" s)) eqn:Hchk; [discriminate|].
  destruct (Py.split "/" s) as [|p1 [|p2 rest]] eqn:Hsplit; try discriminate.
  destruct (py_float p1) as [x|] eqn:H1; [|discriminate].
  destruct (py_float p2) as [y|] eqn:H2; [|discriminate].
  injection Hbp as <- <-.
  unfold preprocess_input, split_blood_pressure, column, float_of_part, derived_frame.
  cbn. unfold bind, ret. cbn. rewrite Hchk.
  unfold try_except, bind. rewrite Hsplit. cbn. rewrite H1. cbn. rewrite H2.
  reflexivity.
Qed.

Lemma preprocess_input_rejects (data : InputRecord) (w : World) :
  read_blood_pressure data = None ->
  exists m,
    preprocess_input data w =
      (inr (Raise ValueError),
       {| session := session w; screen := screen w ++ [Error m] |}).
Proof.
  unfold read_blood_pressure. intro Hbp.
  destruct data as [g a o sd q pa st bmi bp hr ds]; cbn [Blood_Pressure] in Hbp.
  unfold preprocess_input, split_blood_pressure, column, float_of_part.
  destruct bp as [s|]; [|exists ErrBPFormat; reflexivity].
  cbn. unfold bind at 1. unfold bind at 1. unfold ret at 1. cbn.
  destruct (Py.falsy_str s || negb (Py.contains "/" s)) eqn:Hchk;
    [exists ErrBPFormat; reflexivity|].
  exists ErrBPNumeric.
  unfold bind at 1. unfold try_except, bind.
  destruct (Py.split "/" s) as [|p1 [|p2 rest]] eqn:Hsplit; cbn;
    try reflexivity.
  - destruct (py_float p1); reflexivity.
  - destruct (py_float p1) as [x|] eqn:H1; cbn; [|reflexivity].
    destruct (py_float p2) as [y|] eqn:H2; cbn; [discriminate|reflexivity].
Qed.

Lemma read_blood_pressure_none (data : InputRecord) :
  read_blood_pressure data = None <-> rejected_blood_pressure data.
Proof.
  unfold read_blood_pressure, rejected_blood_pressure.
  destruct (Blood_Pressure data) as [s|]; [|tauto].
  destruct s as [|c s']; [cbn; tauto|].
  set (s := String c s'). cbn [Py.falsy_str orb].
  destruct (Py.contains "/" s) eqn:Hc; cbn [negb]; [|tauto].
  destruct (split_with_separator _ _ Hc) as (a & b & rest & ->).
  split.
  - intro Hn. right; right.
    destruct (py_float a) eqn:Ha.
    + right. exists a, b, rest. split; [reflexivity|].
      destruct (py_float b); [discriminate|reflexivity].
    + left. exists a, (b :: rest). now split.
  - intros [He|[Hf|[(a' & rest' & Heq & Ha)|(a' & b' & rest' & Heq & Hb)]]].
    + discriminate.
    + discriminate.
    + injection Heq as <- _. now rewrite Ha.
    + injection Heq as <- <- _. rewrite Hb. now destruct (py_float a).
Qed.

End DeriverFacts.

Lemma series_map_gender (g : string) :
  Frame.series_map gender_mapping (CStr g) =
    if (g =? "Female")%string then CFloat 0%float
    else if (g =? "Male")%string then CFloat 1%float
    else CFloat PrimFloat.nan.
Proof.
  unfold Frame.series_map, gender_mapping. cbn [Frame.getitem].
  rewrite (String.eqb_sym "Female" g), (String.eqb_sym "Male" g).
  destruct (g =? "Female")%string, (g =? "Male")%string; reflexivity.
Qed.

(** The two genders the form offers are not keys of the mapping. *)
Lemma form_genders_unmapped :
  Frame.series_map gender_mapping (CStr "Perempuan") = CFloat PrimFloat.nan /\
  Frame.series_map gender_mapping (CStr "Laki-laki") = CFloat PrimFloat.nan.
Proof. split; reflexivity. Qed.

Lemma valid_frame `{Externals} (r : InputRecord) (systolic diastolic : float) :
  Spec.valid_record r ->
  derived_frame r systolic diastolic = Spec.feature_vector r systolic diastolic.
Proof.
  intros (Hg & Ha & _ & _ & Hq & Hp & Hs & Hb & _ & _ & _).
  unfold derived_frame, Spec.feature_vector.
  assert (Hgc : Frame.series_map gender_mapping (CStr (Gender r))
                = CFloat (Spec.GenderCode (Gender r)))
    by (destruct Hg as [-> | ->]; reflexivity).
  assert (Hbc : Frame.series_map bmi_mapping (CStr (BMI_Category r))
                = CInt (Spec.BMICode (BMI_Category r))).
  { cbn [In] in Hb.
    destruct Hb as [<-|[<-|[<-|[<-|[<-|[]]]]]]; reflexivity. }
  rewrite Hgc, Hbc.
  rewrite !wrap64_small by nia.
  reflexivity.
Qed.

Lemma reads_blood_pressure `{Externals} (r : InputRecord) (systolic diastolic : float) :
  Spec.blood_pressure_reads r systolic diastolic ->
  read_blood_pressure r = Some (systolic, diastolic).
Proof.
  intros (s & a & b & Hbp & Hsplit & Ha & Hb).
  unfold read_blood_pressure. rewrite Hbp.
  destruct (Py.contains "/" s) eqn:Hc.
  - destruct s as [|c s']; [discriminate|].
    cbn [Py.falsy_str orb negb]. rewrite Hsplit, Ha, Hb. reflexivity.
  - rewrite (split_without_separator _ _ Hc) in Hsplit. discriminate.
Qed.

(** C4: for every valid input record the feature deriver returns the
    sixteen columns in the fixed order Gender code (Female 0, Male 1),
    Age, Sleep Duration, Quality of Sleep, Physical Activity Level,
    Stress Level, BMI code (Normal, Normal Weight, Underweight 0,
    Overweight 1, Obese 2), Heart Rate, Daily Steps, Systolic, Diastolic,
    Sleep Duration/24, Stress Level*Quality of Sleep,
    Daily Steps/(Physical Activity Level+1),
    Stress Level/(Quality of Sleep+1), Sleep Duration/(Age+1); on
    Scenario B the five derived values are 7/24, 35, 8000/6, 5/8, 7/31. *)
Theorem preprocess_input_feature_vector `{Externals}
        (r : InputRecord) (systolic diastolic : float) (w : World) :
  Spec.valid_record r ->
  Spec.blood_pressure_reads r systolic diastolic ->
  preprocess_input r w = (inl (Spec.feature_vector r systolic diastolic), w) /\
  map fst (Spec.feature_vector r systolic diastolic) = expected_columns /\
  List.length expected_columns = 16%nat /\
  (Spec.scenario_B r ->
   skipn 11 (Spec.feature_vector r systolic diastolic) = Spec.derived_B).
Proof.
  intros Hv Hbp. repeat split.
  - rewrite (preprocess_input_accepts r systolic diastolic w)
      by now apply reads_blood_pressure.
    now rewrite valid_frame.
  - intros (Hs & Hq & Ht & Hp & Hd & Ha).
    unfold Spec.feature_vector. cbn [skipn].
    rewrite Hs, Hq, Ht, Hp, Hd, Ha. reflexivity.
Qed.

Lemma preprocess_input_feature_vector_witness :
  @preprocess_input Plain.externals Examples.record_B Examples.empty_world =
    (inl (Spec.feature_vector Examples.record_B 120 80), Examples.empty_world) /\
  skipn 11 (Spec.feature_vector Examples.record_B 120 80) = Spec.derived_B.
Proof.
  assert (Hbp : @Spec.blood_pressure_reads Plain.externals Examples.record_B 120 80).
  { exists "120/80", "120", "80". repeat split. }
  assert (Hv : @Spec.valid_record Plain.externals Examples.record_B).
  { unfold Spec.valid_record. cbn.
    repeat split; try lia; try discriminate; auto.
    exists 120%float, 80%float. exact Hbp. }
  assert (HB : Spec.scenario_B Examples.record_B) by (repeat split).
  destruct (@preprocess_input_feature_vector Plain.externals Examples.record_B
              120 80 Examples.empty_world Hv Hbp) as (H1 & _ & _ & H4).
  split; [exact H1 | exact (H4 HB)].
Defined.

(** C3 (as the code has it): [preprocess_input] raises its ValueError
    exactly when the blood pressure is None or empty, holds no "/", or
    one of the first two pieces around "/" is not read by float(); a
    record that is not turned down gives a frame and leaves the screen as
    it was.  Pieces after the second are not looked at.  "120" always
    raises, and so does "abc/80" since float() does not read "abc". *)
Theorem preprocess_input_raises_iff `{Externals} (data : InputRecord) (w : World) :
  ((exists w', preprocess_input data w = (inr (Raise ValueError), w'))
   <-> rejected_blood_pressure data) /\
  (~ rejected_blood_pressure data ->
   exists df, preprocess_input data w = (inl df, w)) /\
  (Blood_Pressure data = Some "120" ->
   exists w', preprocess_input data w = (inr (Raise ValueError), w')) /\
  (py_float "abc" = None -> Blood_Pressure data = Some "abc/80" ->
   exists w', preprocess_input data w = (inr (Raise ValueError), w')).
Proof.
  assert (Hraise : rejected_blood_pressure data ->
                   exists w', preprocess_input data w = (inr (Raise ValueError), w')).
  { intro Hr. apply read_blood_pressure_none in Hr.
    destruct (preprocess_input_rejects data w Hr) as (m & Hm). eauto. }
  split; [split; [|exact Hraise]|split; [|split]].
  - intros (w' & Hw').
    apply read_blood_pressure_none.
    destruct (read_blood_pressure data) as [[x y]|] eqn:Hread; [|reflexivity].
    rewrite (preprocess_input_accepts data x y w Hread) in Hw'. discriminate.
  - intro Hn.
    destruct (read_blood_pressure data) as [[x y]|] eqn:Hread.
    + exists (derived_frame data x y). now apply preprocess_input_accepts.
    + elim Hn. now apply read_blood_pressure_none.
  - intro Hbp. apply Hraise. unfold rejected_blood_pressure. rewrite Hbp.
    right; left. reflexivity.
  - intros Habc Hbp. apply Hraise. unfold rejected_blood_pressure. rewrite Hbp.
    right; right; left. exists "abc", ["80"]. split; [reflexivity|exact Habc].
Qed.

Lemma preprocess_input_raises_iff_witness :
  exists w',
    @preprocess_input Plain.externals
      (Examples.with_blood_pressure (Some "abc/80") Examples.record_B)
      Examples.empty_world = (inr (Raise ValueError), w').
Proof.
  apply (proj2 (proj2 (proj2
           (@preprocess_input_raises_iff Plain.externals
              (Examples.with_blood_pressure (Some "abc/80") Examples.record_B)
              Examples.empty_world)))); reflexivity.
Defined.

(** C3 as worded fails: "120/80/60" does not hold exactly one "/", yet
    the record is accepted, with 120 and 80 for the two columns. *)
Lemma three_part_blood_pressure_accepted :
  @Spec.malformed_blood_pressure Plain.externals Examples.record_three_parts /\
  @preprocess_input Plain.externals Examples.record_three_parts Examples.empty_world
  = (inl (Spec.feature_vector Examples.record_three_parts 120 80),
     Examples.empty_world).
Proof.
  split.
  - cbn. right; left. discriminate.
  - reflexivity.
Qed.

(** C10: a Gender other than "Female" and "Male", such as the form's
    "Perempuan" and "Laki-laki", raises nothing: whenever the blood
    pressure is read the frame is returned with NaN in the Gender column
    and nothing is written on the screen, and the only exception the
    function can raise is the ValueError of a rejected blood pressure. *)
Theorem unmapped_gender_becomes_nan `{Externals} (data : InputRecord) (w : World) :
  Gender data <> "Female" -> Gender data <> "Male" ->
  (forall systolic diastolic,
      read_blood_pressure data = Some (systolic, diastolic) ->
      exists df,
        preprocess_input data w = (inl df, w) /\
        Frame.getitem df "Gender" = Some (CFloat PrimFloat.nan)) /\
  (forall sig w',
      preprocess_input data w = (inr sig, w') ->
      sig = Raise ValueError /\ rejected_blood_pressure data).
Proof.
  intros HF HM. split.
  - intros x y Hread. exists (derived_frame data x y).
    split; [now apply preprocess_input_accepts|].
    unfold derived_frame. cbn [Frame.getitem String.eqb Ascii.eqb Bool.eqb].
    rewrite series_map_gender.
    apply String.eqb_neq in HF, HM. now rewrite HF, HM.
  - intros sig w' Hrun.
    destruct (read_blood_pressure data) as [[x y]|] eqn:Hread.
    + rewrite (preprocess_input_accepts data x y w Hread) in Hrun. discriminate.
    + destruct (preprocess_input_rejects data w Hread) as (m & Hm).
      rewrite Hm in Hrun. injection Hrun as <- _.
      split; [reflexivity|]. now apply read_blood_pressure_none.
Qed.

Lemma unmapped_gender_becomes_nan_witness :
  exists df,
    @preprocess_input Plain.externals Examples.record_form Examples.empty_world
    = (inl df, Examples.empty_world) /\
    Frame.getitem df "Gender" = Some (CFloat PrimFloat.nan).
Proof.
  apply (proj1 (@unmapped_gender_becomes_nan Plain.externals Examples.record_form
                  Examples.empty_world ltac:(discriminate) ltac:(discriminate))
           120%float 80%float).
  reflexivity.
Defined.

(** ** Display and page flow *)

Lemma advice_shown_app (es es' : list Event) :
  Spec.advice_shown (es ++ es') = Spec.advice_shown es ++ Spec.advice_shown es'.
Proof. apply flat_map_app. Qed.

Lemma display_results_insomnia (pN pI : float) (w : World) :
  display_results 1 (Some (pN, pI)) w =
    (inl tt,
     {| session := session w;
        screen := screen w ++
          [ ResultHeader; PredictionBox 1;
            Probabilities (pN * 100)%float (pI * 100)%float;
            AdviceHeading 1;
            Advice (insomnia_tier (pI * 100)%float) (pI * 100)%float ] |}).
Proof.
  unfold display_results, bind, show. cbn. now rewrite <- !app_assoc.
Qed.

Lemma display_results_normal (pN pI : float) (w : World) :
  display_results 0 (Some (pN, pI)) w =
    (inl tt,
     {| session := session w;
        screen := screen w ++
          [ ResultHeader; PredictionBox 0;
            Probabilities (pN * 100)%float (pI * 100)%float;
            AdviceHeading 0;
            Advice (normal_tier (pN * 100)%float) (pN * 100)%float ] |}).
Proof.
  unfold display_results, bind, show. cbn. now rewrite <- !app_assoc.
Qed.

(** On what the scorer returns, the tier by percentage is the tier by
    probability. *)
Lemma display_results_scorer (d : InputRecord) (w : World) :
  display_results (fst (predict_insomnia_rule_based d))
                  (Some (snd (predict_insomnia_rule_based d))) w =
    (inl tt,
     {| session := session w;
        screen := screen w ++ Spec.result_screen (predict_insomnia_rule_based d) |}).
Proof.
  unfold predict_insomnia_rule_based, rule_score.
  destruct (Sleep_Duration d <? 6)%float, (Quality_of_Sleep d <? 5),
    (Stress_Level d >? 7), (Physical_Activity_Level d <? 4),
    (BMI_Category d =? "Obese")%string;
    cbn [score_to_result Z.add Z.geb Z.eqb Z.compare Pos.compare
         Pos.compare_cont Pos.add Pos.succ Pos.eqb fst snd];
    (rewrite display_results_insomnia || rewrite display_results_normal);
    reflexivity.
Qed.

Lemma falsy_str_false (s : string) : s <> "" -> Py.falsy_str s = false.
Proof. destruct s; [congruence|reflexivity]. Qed.

Lemma contains_nonempty (c : ascii) (s : string) :
  Py.contains c s = true -> Py.falsy_str s = false.
Proof. destruct s; [discriminate|reflexivity]. Qed.

Section AppFacts.

Context `{Externals}.

Lemma submit_form_accepts (f : FormValues) (w : World) :
  Spec.valid_submission f ->
  submit_form f w =
    (inr Rerun,
     {| session := {| ss_started := ss_started (session w);
                      ss_page := Some result;
                      ss_input_data := Some (form_record f) |};
        screen := screen w |}).
Proof.
  intros (Hg & Ha & (Ho & Ho1 & Ho2) & (Hs0 & Hs1 & Hs2) & Hq & Hp & Ht & Hb
          & Hbp & Hh & Hd).
  apply falsy_str_false in Ho.
  unfold submit_form.
  rewrite (falsy_str_false _ Hg), (falsy_str_false _ Hb), Ho,
    (contains_nonempty _ _ Hbp), Hs0, Hs1, Hs2, Ho2, Hbp.
  apply String.eqb_neq in Ho1. rewrite Ho1.
  replace (age f =? 0) with false by (symmetry; apply Z.eqb_neq; lia).
  replace (quality_of_sleep f =? 0) with false by (symmetry; apply Z.eqb_neq; lia).
  replace (physical_activity f =? 0) with false by (symmetry; apply Z.eqb_neq; lia).
  replace (stress_level f =? 0) with false by (symmetry; apply Z.eqb_neq; lia).
  replace (heart_rate f =? 0) with false by (symmetry; apply Z.eqb_neq; lia).
  replace (daily_steps f =? 0) with false by (symmetry; apply Z.eqb_neq; lia).
  replace (age f <? 18) with false by (symmetry; apply Z.ltb_ge; lia).
  replace (age f >? 100) with false by (symmetry; rewrite Z.gtb_ltb; apply Z.ltb_ge; lia).
  replace (heart_rate f <? 40) with false by (symmetry; apply Z.ltb_ge; lia).
  replace (heart_rate f >? 200) with false
    by (symmetry; rewrite Z.gtb_ltb; apply Z.ltb_ge; lia).
  replace (daily_steps f <? 1000) with false by (symmetry; apply Z.ltb_ge; lia).
  replace (daily_steps f >? 20000) with false
    by (symmetry; rewrite Z.gtb_ltb; apply Z.ltb_ge; lia).
  reflexivity.
Qed.

(** Without the classifier the script stops below the header. *)
Lemma main_without_artifact (ui : Widgets) (ss : SessionState) :
  ss_started ss = Some true ->
  script_run None ui ss =
    (inr Return,
     {| session := ss;
        screen := [AppHeader; Error ErrLoadingModel; Error ErrModelUnavailable] |}).
Proof.
  intro Hs. destruct ss as [st pg dt]. cbn in Hs. subst st. reflexivity.
Qed.

Lemma main_result_page (model : Model) (ui : Widgets) (ss : SessionState)
      (d : InputRecord) :
  Spec.on_result ss d -> Spec.no_menu_click ui ->
  script_run (Some model) ui ss =
    (if btn_kembali ui then inr Rerun else inl tt,
     {| session := if btn_kembali ui
                   then {| ss_started := Some true; ss_page := Some home;
                           ss_input_data := Some d |}
                   else ss;
        screen := [AppHeader; SidebarMenu]
                    ++ Spec.result_screen (predict_insomnia_rule_based d) |}).
Proof.
  intros (Hs & Hp & Hd) (Hh & Hi & Hc).
  destruct ss as [st pg dt]. cbn in Hs, Hp, Hd. subst st pg dt.
  unfold script_run, main. rewrite Hh, Hi, Hc.
  cbn. unfold bind, ret.
  pose proof (display_results_scorer d
                {| session := {| ss_started := Some true; ss_page := Some result;
                                 ss_input_data := Some d |};
                   screen := [AppHeader; SidebarMenu] |}) as Hshow.
  destruct (predict_insomnia_rule_based d) as [prediction proba].
  cbn [fst snd] in Hshow. rewrite Hshow. cbn [session screen].
  destruct (btn_kembali ui); reflexivity.
Qed.

Lemma main_submit (model : Model) (ui : Widgets) (ss : SessionState) :
  Spec.on_form ss -> btn_info ui = false -> btn_credit ui = false ->
  submit ui = true -> Spec.valid_submission (form ui) ->
  script_run (Some model) ui ss =
    (inr Rerun,
     {| session := {| ss_started := Some true; ss_page := Some result;
                      ss_input_data := Some (form_record (form ui)) |};
        screen := [AppHeader; SidebarMenu; FormPage] |}).
Proof.
  intros (Hs & Hp) Hi Hc Hsub Hv.
  destruct ss as [st pg dt]. cbn in Hs, Hp. subst st.
  unfold script_run, main. rewrite Hi, Hc, Hsub.
  destruct Hp as [-> | ->], (btn_home ui); cbn;
    rewrite submit_form_accepts by assumption; reflexivity.
Qed.

End AppFacts.

Lemma display_results_returns (prediction : Z) (proba : option (float * float))
      (w : World) :
  fst (display_results prediction proba w) = inl tt.
Proof.
  unfold display_results, bind, show, st_error, show.
  cbn. destruct (prediction =? 1); [|destruct (prediction =? 0)];
    destruct proba; reflexivity.
Qed.

Section FlowFacts.

Context `{Externals}.

(** Without the classifier no run of the script shows a result. *)
Lemma no_artifact_no_result (ui : Widgets) (ss : SessionState) :
  ~ Spec.shows_result (screen (interaction None ui ss)).
Proof.
  unfold interaction, script_run, main.
  destruct ss as [[[|]|] pg dt]; cbn; try destruct (btn_mulai ui); cbn;
    intros (label & Hin); cbn in Hin;
    repeat (destruct Hin as [Hin|Hin]; [discriminate|]); exact Hin.
Qed.

(** X21: the run that replaces a rerun asks for no further rerun,
    whatever the session and the classifier are: one interaction is at
    most two script runs. *)
Lemma rerun_settles (artifact : option Model) (ui : Widgets) (ss : SessionState) :
  fst (script_run artifact (no_clicks ui) ss) <> inr Rerun.
Proof.
  unfold script_run, main.
  destruct ss as [[[|]|] pg dt], artifact as [model|]; cbn; try discriminate.
  all: destruct pg as [[| | |]|]; cbn; try discriminate.
  all: unfold result_page, bind; cbn.
  all: destruct dt as [d|]; cbn; try discriminate.
  all: destruct (predict_insomnia_rule_based d) as [prediction proba].
  all: pose proof (display_results_returns prediction (Some proba)
                {| session := {| ss_started := Some true; ss_page := Some result;
                                 ss_input_data := Some d |};
                   screen := [AppHeader; SidebarMenu] |}) as Hd.
  all: destruct (display_results _ _ _) as [[[]|sig] w']; cbn in Hd;
    [discriminate|discriminate].
Qed.

(** The classifier path hands every exception to its handler. *)
Lemma predict_insomnia_returns (model : Model) (input_data : InputRecord)
      (w : World) :
  exists res w', predict_insomnia model input_data w = (inl res, w').
Proof.
  unfold predict_insomnia, try_except, bind.
  destruct (read_blood_pressure input_data) as [[x y]|] eqn:Hread.
  - rewrite (preprocess_input_accepts input_data x y w Hread).
    cbn. destruct (model_predict model _); cbn;
      [|do 2 eexists; reflexivity].
    destruct (model_predict_proba model _); cbn; do 2 eexists; reflexivity.
  - destruct (preprocess_input_rejects input_data w Hread) as (m & ->).
    cbn. do 2 eexists; reflexivity.
Qed.

(** A classifier that fails on the derived frame: the handler's message
    and [(None, None)]. *)
Lemma predict_insomnia_caught (model : Model) (input_data : InputRecord)
      (x y : float) (w : World) :
  read_blood_pressure input_data = Some (x, y) ->
  model_predict model (derived_frame input_data x y) = None \/
  model_predict_proba model (derived_frame input_data x y) = None ->
  predict_insomnia model input_data w =
    (inl (None, None), Facts.shown w [Error ErrPrediction]).
Proof.
  intros Hread Hfail. unfold predict_insomnia, try_except, bind.
  rewrite (preprocess_input_accepts input_data x y w Hread). cbn.
  destruct (model_predict model _) as [p|]; cbn; [|reflexivity].
  destruct Hfail as [Hfail|Hfail]; [discriminate|].
  now rewrite Hfail.
Qed.

End FlowFacts.

(** C5 (as the code has it): the advice is chosen from the percentage
    p*100 of the predicted class, computed in binary64: for Insomnia at
    least 80 gives the high-risk tier, at least 60 the moderate tier and
    anything else the low tier; for Normal at least 90 gives the
    excellent tier, at least 70 the good tier and anything else the fair
    tier.  On every result of the rule-based scorer this is the tier of
    the thresholds 0.80, 0.60, 0.90 and 0.70 on the probability. *)
Theorem advice_tier_by_percentage :
  (forall pN pI w,
      Spec.advice_shown
        (screen (snd (display_results Spec.Insomnia (Some (pN, pI)) w)))
      = Spec.advice_shown (screen w)
          ++ [ if (80 <=? pI * 100)%float then HighRisk
               else if (60 <=? pI * 100)%float then ModerateRisk
               else LowRisk ]) /\
  (forall pN pI w,
      Spec.advice_shown
        (screen (snd (display_results Spec.Normal (Some (pN, pI)) w)))
      = Spec.advice_shown (screen w)
          ++ [ if (90 <=? pN * 100)%float then Excellent
               else if (70 <=? pN * 100)%float then Good
               else Fair ]) /\
  (forall d w,
      Spec.advice_shown
        (screen (snd (display_results (fst (predict_insomnia_rule_based d))
                                      (Some (snd (predict_insomnia_rule_based d))) w)))
      = Spec.advice_shown (screen w)
          ++ [ Spec.tier (fst (predict_insomnia_rule_based d))
                         (snd (predict_insomnia_rule_based d)) ]).
Proof.
  split; [|split].
  - intros pN pI w. unfold Spec.Insomnia.
    rewrite display_results_insomnia. cbn [snd screen].
    now rewrite advice_shown_app.
  - intros pN pI w. unfold Spec.Normal.
    rewrite display_results_normal. cbn [snd screen].
    now rewrite advice_shown_app.
  - intros d w. rewrite display_results_scorer. cbn [snd screen].
    now rewrite advice_shown_app.
Qed.

(** C5 as worded fails one step below 0.80: the probability
    0.7999999999999999 is below 0.80 and at least 0.60, the moderate
    tier by the thresholds on the probability, but its percentage rounds
    to 80.0 and the high-risk advice is shown. *)
Lemma tier_one_step_below_080 :
  (0.60 <=? Examples.just_below_080)%float = true /\
  (Examples.just_below_080 <? 0.80)%float = true /\
  (0.2 + Examples.just_below_080)%float = 1%float /\
  Spec.tier Spec.Insomnia (0.2%float, Examples.just_below_080) = ModerateRisk /\
  (Examples.just_below_080 * 100)%float = 80%float /\
  Spec.advice_shown
    (screen (snd (display_results Spec.Insomnia
                    (Some (0.2%float, Examples.just_below_080))
                    Examples.empty_world)))
  = [HighRisk].
Proof. repeat split. Qed.

(** C6 (as the code has it): [predict_insomnia] never raises, and a
    classifier that fails to predict on the derived frame is caught
    inside it: the prediction error is reported with [st.error] and
    [(None, None)] is returned.  A classifier that fails to load makes
    [main] report it and return below the header, whatever the page and
    the submission, and no session and no click gets a result onto the
    screen.  With the classifier loaded, a valid submission is followed
    by the result page, and what it shows is the rule-based scorer's
    result for the submitted record. *)
Theorem result_needs_loaded_artifact `{Externals} :
  (forall model input_data w,
      exists res w', predict_insomnia model input_data w = (inl res, w')) /\
  (forall model input_data w x y,
      read_blood_pressure input_data = Some (x, y) ->
      model_predict model (derived_frame input_data x y) = None \/
      model_predict_proba model (derived_frame input_data x y) = None ->
      predict_insomnia model input_data w =
        (inl (None, None),
         {| session := session w;
            screen := screen w ++ [Error ErrPrediction] |})) /\
  (forall ui ss,
      ss_started ss = Some true ->
      interaction None ui ss =
        {| session := ss;
           screen := [AppHeader; Error ErrLoadingModel; Error ErrModelUnavailable] |}) /\
  (forall ui ss, ~ Spec.shows_result (screen (interaction None ui ss))) /\
  (forall model ui ss,
      Spec.on_form ss -> btn_info ui = false -> btn_credit ui = false ->
      submit ui = true -> Spec.valid_submission (form ui) ->
      screen (interaction (Some model) ui ss) =
        [AppHeader; SidebarMenu]
          ++ Spec.result_screen (predict_insomnia_rule_based (form_record (form ui)))).
Proof.
  split; [|split; [|split; [|split]]].
  - apply predict_insomnia_returns.
  - intros model input_data w x y Hread Hfail.
    now rewrite (predict_insomnia_caught model input_data x y w Hread Hfail).
  - intros ui ss Hs. unfold interaction.
    now rewrite main_without_artifact.
  - apply no_artifact_no_result.
  - intros model ui ss Hf Hi Hc Hsub Hv. unfold interaction.
    rewrite main_submit by assumption. cbn [session].
    rewrite (main_result_page model (no_clicks ui) _ (form_record (form ui)));
      [reflexivity| |]; repeat split.
Qed.

Lemma result_needs_loaded_artifact_witness :
  @predict_insomnia Plain.externals tt Examples.record_A Examples.empty_world
  = (inl (None, None),
     {| session := session Examples.empty_world;
        screen := [Error ErrPrediction] |}) /\
  screen (@interaction Plain.externals (Some tt) Examples.submit_A
            Examples.started_session)
  = [AppHeader; SidebarMenu]
      ++ Spec.result_screen (predict_insomnia_rule_based Examples.record_A_form).
Proof.
  split.
  - apply (proj1 (proj2 (@result_needs_loaded_artifact Plain.externals))
             tt Examples.record_A Examples.empty_world 120%float 80%float).
    + reflexivity.
    + left. reflexivity.
  - apply (proj2 (proj2 (proj2 (proj2
             (@result_needs_loaded_artifact Plain.externals))))
             tt Examples.submit_A Examples.started_session).
    + split; [reflexivity|right; reflexivity].
    + reflexivity.
    + reflexivity.
    + reflexivity.
    + unfold Spec.valid_submission. cbn.
      repeat split; try lia; discriminate.
Defined.

(** C6 as worded fails: with the classifier unavailable a valid
    submission shows the two error messages and no result, on the form
    and on the result page alike; with it loaded the same submission
    shows the result. *)
Lemma no_result_without_artifact :
  @Spec.valid_submission Plain.externals Examples.form_A /\
  screen (@interaction Plain.externals None Examples.submit_A
            Examples.started_session)
  = [AppHeader; Error ErrLoadingModel; Error ErrModelUnavailable] /\
  screen (@interaction Plain.externals None (no_clicks Examples.submit_A)
            Examples.result_session)
  = [AppHeader; Error ErrLoadingModel; Error ErrModelUnavailable] /\
  screen (@interaction Plain.externals (Some tt) Examples.submit_A
            Examples.started_session)
  = [AppHeader; SidebarMenu; ResultHeader; PredictionBox 1;
     Probabilities 10 90; AdviceHeading 1; Advice HighRisk 90].
Proof.
  split.
  - unfold Spec.valid_submission. cbn. repeat split; try lia; discriminate.
  - repeat split.
Qed.

(** ** The scorer's call reads and does not write *)

Lemma reads_only_ret {A} (keys : list string) (ref : nat) (a : A) :
  Store.reads_only keys ref (Store.ret a).
Proof. intro m. split; reflexivity. Qed.

Lemma reads_only_raise {A} (keys : list string) (ref : nat) (e : Exn) :
  Store.reads_only keys ref (@Store.raise A e).
Proof. intro m. split; reflexivity. Qed.

Lemma reads_only_getitem (keys : list string) (ref : nat) (key : string) :
  In key keys -> Store.reads_only keys ref (Store.getitem ref key).
Proof.
  intros Hin m. unfold Store.getitem. split.
  - now destruct (Store.lookup key (Store.objects m ref)).
  - intros m' Hag. rewrite (Hag key Hin).
    now destruct (Store.lookup key (Store.objects m ref)).
Qed.

Lemma reads_only_bind {A B} (keys : list string) (ref : nat)
      (c : Store.Call A) (k : A -> Store.Call B) :
  Store.reads_only keys ref c ->
  (forall a, Store.reads_only keys ref (k a)) ->
  Store.reads_only keys ref (Store.bind c k).
Proof.
  intros Hc Hk m. unfold Store.bind.
  destruct (Hc m) as [Hm Hsame].
  destruct (c m) as [[a|e] m1] eqn:Hcm; cbn in Hm; subst m1.
  - split; [apply (Hk a m)|].
    intros m' Hag. pose proof (Hsame m' Hag) as Hf.
    destruct (Hc m') as [Hm' _].
    destruct (c m') as [[a'|e'] m1']; cbn in Hf, Hm'; subst m1';
      [|discriminate].
    injection Hf as ->. now apply (Hk a m).
  - split; [reflexivity|].
    intros m' Hag. pose proof (Hsame m' Hag) as Hf.
    destruct (c m') as [[a'|e'] m1']; cbn in Hf; [discriminate|].
    cbn. now injection Hf as ->.
Qed.

Lemma reads_only_lt (keys : list string) (ref : nat) (v : Store.pyval) (n : Z) :
  Store.reads_only keys ref (Store.lt v n).
Proof.
  destruct v; cbn; auto using @reads_only_ret, @reads_only_raise.
Qed.

Lemma reads_only_gt (keys : list string) (ref : nat) (v : Store.pyval) (n : Z) :
  Store.reads_only keys ref (Store.gt v n).
Proof.
  destruct v; cbn; auto using @reads_only_ret, @reads_only_raise.
Qed.

Lemma scorer_reads_only (input_data : nat) :
  Store.reads_only Store.scored_keys input_data
    (Store.predict_insomnia_rule_based input_data).
Proof.
  unfold Store.predict_insomnia_rule_based.
  repeat first
    [ apply reads_only_bind; [|intro]
    | apply reads_only_getitem; cbn; tauto
    | apply reads_only_lt
    | apply reads_only_gt
    | apply reads_only_ret ].
Qed.

(** On the dict the form builds, the call returns what the scorer, as a
    function of the record, gives. *)
Lemma scorer_on_record (input_data : nat) (m : Store.Memory) (r : InputRecord) :
  Store.objects m input_data = Store.dict_of_record r ->
  Store.predict_insomnia_rule_based input_data m
  = (inl (predict_insomnia_rule_based r), m).
Proof.
  intro Hobj.
  unfold Store.predict_insomnia_rule_based, Store.bind, Store.getitem.
  repeat (rewrite Hobj; cbn).
  reflexivity.
Qed.

(** C9: the scorer, run as a call on a memory of dict objects, session
    and screen, writes nothing: the memory after the call is the memory
    before it.  Its outcome, a result or an exception, is decided by
    the five items it reads of the dict it is given: in any other
    memory, with another session, screen and other objects, where that
    dict holds the same five items, the outcome is the same.  So a
    second call on the memory the first one left has the outcome of the
    first.  On the dict the form builds from a record the call returns,
    and its result is [predict_insomnia_rule_based] of the record. *)
Theorem scorer_is_pure (input_data : nat) (m : Store.Memory) :
  snd (Store.predict_insomnia_rule_based input_data m) = m /\
  (forall m',
      Store.agree Store.scored_keys input_data m m' ->
      fst (Store.predict_insomnia_rule_based input_data m')
      = fst (Store.predict_insomnia_rule_based input_data m)) /\
  Store.predict_insomnia_rule_based input_data
    (snd (Store.predict_insomnia_rule_based input_data m))
  = Store.predict_insomnia_rule_based input_data m /\
  (forall r,
      Store.objects m input_data = Store.dict_of_record r ->
      Store.predict_insomnia_rule_based input_data m
      = (inl (predict_insomnia_rule_based r), m)).
Proof.
  destruct (scorer_reads_only input_data m) as [Hm Hsame].
  split; [exact Hm|]. split; [exact Hsame|]. split.
  - now rewrite Hm.
  - intros r Hobj. now apply scorer_on_record.
Qed.

Lemma scorer_is_pure_witness :
  Store.predict_insomnia_rule_based 0
    (Store.holding Examples.record_A Examples.empty_world)
  = (inl (1, (0.1, 0.9)%float),
     Store.holding Examples.record_A Examples.empty_world).
Proof.
  apply (proj2 (proj2 (proj2
           (scorer_is_pure 0 (Store.holding Examples.record_A
                                Examples.empty_world))))
           Examples.record_A).
  reflexivity.
Defined.

(** * Further properties of the code *)

(** ** Scorer and display *)

Lemma predict_cases (r : InputRecord) :
  exists s, rule_score r = s /\
            predict_insomnia_rule_based r = score_to_result s /\
            (s = 0 \/ s = 1 \/ s = 2 \/ s = 3 \/ s = 4 \/ s = 5 \/ s = 6
             \/ s = 7 \/ s = 8).
Proof.
  exists (rule_score r). pose proof (rule_score_range r).
  repeat split. lia.
Qed.

(** X1: the predicted label is the class with the larger probability
    for every score but 3; at score 3 the label is Insomnia although
    Normal has the larger probability (0.55 against 0.45). *)
Theorem label_and_larger_probability (r : InputRecord) :
  let res := predict_insomnia_rule_based r in
  (rule_score r <> 3 ->
   (fst res = 1 <-> (fst (snd res) <? snd (snd res))%float = true)) /\
  (rule_score r = 3 ->
   fst res = 1 /\ (snd (snd res) <? fst (snd res))%float = true).
Proof.
  destruct (predict_cases r) as (s & Hs & Hp & Hc). cbv zeta.
  rewrite Hs, Hp.
  destruct Hc as [->|[->|[->|[->|[->|[->|[->|[->| ->]]]]]]]]; cbn;
    (split; [intro Hn; try (now elim Hn); split; intro Hx;
             first [reflexivity | discriminate]
            |intro Hx; first [discriminate | split; reflexivity]]).
Qed.

Lemma label_and_larger_probability_witness :
  fst (predict_insomnia_rule_based
         (Examples.triggering true false false true false)) = 1 /\
  (snd (snd (predict_insomnia_rule_based
               (Examples.triggering true false false true false)))
   <? fst (snd (predict_insomnia_rule_based
                  (Examples.triggering true false false true false))))%float
  = true.
Proof.
  apply (proj2 (label_and_larger_probability
                  (Examples.triggering true false false true false))).
  reflexivity.
Defined.

(** X2: a higher score never lowers the risk: the probability of
    insomnia does not decrease, the probability of normal sleep does not
    increase, and an Insomnia label does not turn into Normal. *)
Theorem risk_grows_with_score (r r' : InputRecord) :
  rule_score r <= rule_score r' ->
  (snd (snd (predict_insomnia_rule_based r))
   <=? snd (snd (predict_insomnia_rule_based r')))%float = true /\
  (fst (snd (predict_insomnia_rule_based r'))
   <=? fst (snd (predict_insomnia_rule_based r)))%float = true /\
  fst (predict_insomnia_rule_based r) <= fst (predict_insomnia_rule_based r').
Proof.
  destruct (predict_cases r) as (s & Hs & Hp & Hc).
  destruct (predict_cases r') as (s' & Hs' & Hp' & Hc').
  rewrite Hs, Hs', Hp, Hp'. intro Hle.
  destruct Hc as [->|[->|[->|[->|[->|[->|[->|[->| ->]]]]]]]];
    destruct Hc' as [->|[->|[->|[->|[->|[->|[->|[->| ->]]]]]]]];
    try (exfalso; lia); cbn; repeat split; lia.
Qed.

Lemma risk_grows_with_score_witness :
  (snd (snd (predict_insomnia_rule_based Examples.record_B))
   <=? snd (snd (predict_insomnia_rule_based Examples.record_A)))%float = true.
Proof.
  apply (risk_grows_with_score Examples.record_B Examples.record_A).
  cbn. lia.
Defined.

(** X3: the advice shown for a scorer result is decided by the score
    alone: Excellent at 0, Good at 1 and 2, low risk at 3, moderate risk
    at 4 and 5, high risk from 6 on; the Fair advice is never shown. *)
Theorem advice_by_score (d : InputRecord) (w : World) :
  let res := predict_insomnia_rule_based d in
  Spec.advice_shown (screen (snd (display_results (fst res) (Some (snd res)) w)))
  = Spec.advice_shown (screen w) ++ [Facts.score_tier (rule_score d)] /\
  Facts.score_tier (rule_score d) <> Fair.
Proof.
  cbv zeta. rewrite display_results_scorer. cbn [snd screen].
  rewrite advice_shown_app.
  destruct (predict_cases d) as (s & Hs & Hp & Hc).
  rewrite Hs, Hp.
  destruct Hc as [->|[->|[->|[->|[->|[->|[->|[->| ->]]]]]]]];
    split; first [reflexivity | discriminate].
Qed.

(** X4: a prediction other than 0 and 1 gets the header and the
    "not recognised" error only: no box, no percentages, no advice; and
    a prediction without probabilities gets its box and the advice
    heading, but no percentages and no advice. *)
Theorem display_results_edges (prediction : Z)
        (proba : option (float * float)) (w : World) :
  (prediction <> 0 -> prediction <> 1 ->
   display_results prediction proba w
   = (inl tt, Facts.shown w [ResultHeader; Error ErrUnknownPrediction])) /\
  (prediction = 0 \/ prediction = 1 ->
   display_results prediction None w
   = (inl tt, Facts.shown w [ResultHeader; PredictionBox prediction;
                              AdviceHeading prediction])).
Proof.
  unfold Facts.shown, display_results, bind, show, st_error, show. split.
  - intros H0 H1. apply Z.eqb_neq in H0, H1. rewrite H0, H1. cbn.
    now rewrite <- !app_assoc.
  - intros [-> | ->]; cbn; now rewrite <- !app_assoc.
Qed.

Lemma display_results_edges_witness :
  display_results 2 None Examples.empty_world
  = (inl tt, Facts.shown Examples.empty_world
               [ResultHeader; Error ErrUnknownPrediction]).
Proof.
  apply (proj1 (display_results_edges 2 None Examples.empty_world));
    discriminate.
Defined.

(** X5: whatever the probabilities are, an Insomnia prediction is
    advised in the words of a risk and a Normal prediction in the words
    of a sleep quality; there is exactly one advice, and the percentage
    it quotes is that of the predicted class. *)
Theorem advice_matches_label (prediction : Z) (pN pI : float) (w : World) :
  prediction = 0 \/ prediction = 1 ->
  exists t,
    display_results prediction (Some (pN, pI)) w
    = (inl tt,
       Facts.shown w
         [ ResultHeader; PredictionBox prediction;
           Probabilities (pN * 100)%float (pI * 100)%float;
           AdviceHeading prediction;
           Advice t (if prediction =? 1 then (pI * 100)%float else (pN * 100)%float) ]) /\
    Facts.risk_tier t = (prediction =? 1).
Proof.
  intros [-> | ->].
  - exists (normal_tier (pN * 100)%float).
    rewrite display_results_normal. split; [reflexivity|].
    unfold normal_tier.
    now destruct (90 <=? pN * 100)%float, (70 <=? pN * 100)%float.
  - exists (insomnia_tier (pI * 100)%float).
    rewrite display_results_insomnia. split; [reflexivity|].
    unfold insomnia_tier.
    now destruct (80 <=? pI * 100)%float, (60 <=? pI * 100)%float.
Qed.

Lemma advice_matches_label_witness :
  exists t,
    display_results 0 (Some (0.5, 0.5)%float) Examples.empty_world
    = (inl tt,
       Facts.shown Examples.empty_world
         [ ResultHeader; PredictionBox 0;
           Probabilities (0.5 * 100)%float (0.5 * 100)%float;
           AdviceHeading 0;
           Advice t (if 0 =? 1 then (0.5 * 100)%float else (0.5 * 100)%float) ]) /\
    Facts.risk_tier t = (0 =? 1).
Proof.
  apply (advice_matches_label 0 0.5 0.5 Examples.empty_world).
  left. reflexivity.
Defined.

(** ** Feature deriver and classifier path *)

Lemma series_map_bmi (b : string) :
  Frame.series_map bmi_mapping (CStr b) =
    if (b =? "Normal")%string then CInt 0
    else if (b =? "Normal Weight")%string then CInt 0
    else if (b =? "Overweight")%string then CInt 1
    else if (b =? "Obese")%string then CInt 2
    else if (b =? "Underweight")%string then CInt 0
    else CFloat PrimFloat.nan.
Proof.
  unfold Frame.series_map, bmi_mapping. cbn [Frame.getitem].
  rewrite (String.eqb_sym "Normal" b), (String.eqb_sym "Normal Weight" b),
    (String.eqb_sym "Overweight" b), (String.eqb_sym "Obese" b),
    (String.eqb_sym "Underweight" b).
  destruct (b =? "Normal")%string, (b =? "Normal Weight")%string,
    (b =? "Overweight")%string, (b =? "Obese")%string,
    (b =? "Underweight")%string; reflexivity.
Qed.

Lemma split_app (c : ascii) (s t : string) :
  Py.split c (s ++ String c t) = Py.split c s ++ Py.split c t.
Proof.
  induction s as [|a s IH]; cbn.
  - now rewrite Ascii.eqb_refl.
  - destruct (Ascii.eqb a c); [now rewrite IH|].
    rewrite IH. destruct (Py.split c s) as [|p ps] eqn:Hs; [|reflexivity].
    destruct s; cbn in Hs; [discriminate|].
    destruct (Ascii.eqb a0 c); [discriminate|].
    destruct (Py.split c s); discriminate.
Qed.

Lemma contains_app (c : ascii) (s t : string) :
  Py.contains c (s ++ String c t) = true.
Proof.
  induction s as [|a s IH]; cbn.
  - now rewrite Ascii.eqb_refl.
  - now destruct (Ascii.eqb a c).
Qed.

Section DerivingFacts.

Context `{Externals}.

(** What [preprocess_input] does, by what the blood pressure is. *)
Lemma preprocess_input_outcome (data : InputRecord) (w : World) :
  preprocess_input data w =
    match read_blood_pressure data with
    | Some (x, y) => (inl (derived_frame data x y), w)
    | None =>
        (inr (Raise ValueError),
         Facts.shown w [Error (Deriving.rejection_message data)])
    end.
Proof.
  destruct (read_blood_pressure data) as [[x y]|] eqn:Hread.
  - now apply preprocess_input_accepts.
  - revert Hread. unfold read_blood_pressure, Deriving.rejection_message.
    destruct data as [g a o sd q pa st bmi bp hr ds]; cbn [Blood_Pressure].
    unfold preprocess_input, split_blood_pressure, column, float_of_part.
    destruct bp as [s|]; [|reflexivity].
    cbn. unfold bind at 1. unfold bind at 1. unfold ret at 1. cbn.
    destruct (Py.falsy_str s || negb (Py.contains "/" s)) eqn:Hchk;
      [reflexivity|].
    unfold bind at 1. unfold try_except, bind.
    destruct (Py.split "/" s) as [|p1 [|p2 rest]] eqn:Hsplit; cbn;
      try reflexivity.
    + destruct (py_float p1); reflexivity.
    + destruct (py_float p1) as [x|] eqn:H1; cbn; [|reflexivity].
      destruct (py_float p2) as [y|] eqn:H2; cbn; [discriminate|reflexivity].
Qed.

Lemma derived_frame_shape (data : InputRecord) (x y : float) :
  map fst (derived_frame data x y) = expected_columns /\
  forallb Deriving.numeric (map snd (derived_frame data x y)) = true.
Proof.
  split; [reflexivity|].
  unfold derived_frame. cbn [map snd forallb Deriving.numeric andb].
  rewrite series_map_gender, series_map_bmi.
  destruct (Gender data =? "Female")%string, (Gender data =? "Male")%string,
    (BMI_Category data =? "Normal")%string,
    (BMI_Category data =? "Normal Weight")%string,
    (BMI_Category data =? "Overweight")%string,
    (BMI_Category data =? "Obese")%string,
    (BMI_Category data =? "Underweight")%string; reflexivity.
Qed.

End DerivingFacts.

(** X6: every frame [preprocess_input] returns, for a valid record or
    not, has the sixteen expected columns in order and numbers (NaN
    included) in all of them: the occupation and the blood pressure text
    are gone, and nothing was written on the screen. *)
Theorem returned_frame_shape `{Externals} (data : InputRecord) (w w' : World)
        (df : DataFrame) :
  preprocess_input data w = (inl df, w') ->
  w' = w /\
  map fst df = expected_columns /\
  forallb Deriving.numeric (map snd df) = true /\
  Frame.getitem df "Occupation" = None /\
  Frame.getitem df "Blood Pressure" = None.
Proof.
  rewrite preprocess_input_outcome.
  destruct (read_blood_pressure data) as [[x y]|]; [|discriminate].
  intro Heq. injection Heq as <- <-.
  destruct (derived_frame_shape data x y) as (Hn & Hc).
  repeat split; assumption || reflexivity.
Qed.

Lemma returned_frame_shape_witness :
  map fst (Spec.feature_vector Examples.record_B 120 80) = expected_columns.
Proof.
  apply (@returned_frame_shape Plain.externals Examples.record_B
           Examples.empty_world Examples.empty_world
           (Spec.feature_vector Examples.record_B 120 80)).
  reflexivity.
Defined.

(** X7: a blood pressure that is None, empty or without "/" gets the
    message about the format; one with a "/" whose first or second piece
    is not a number gets the message about numbers; either way exactly
    one message is shown, the session is untouched and ValueError is
    raised. *)
Theorem blood_pressure_messages `{Externals} (data : InputRecord) (w : World) :
  (match Blood_Pressure data with
   | None => True
   | Some s => s = "" \/ Py.contains "/" s = false
   end ->
   preprocess_input data w
   = (inr (Raise ValueError), Facts.shown w [Error ErrBPFormat])) /\
  (forall s,
      Blood_Pressure data = Some s -> Py.contains "/" s = true ->
      read_blood_pressure data = None ->
      preprocess_input data w
      = (inr (Raise ValueError), Facts.shown w [Error ErrBPNumeric])).
Proof.
  rewrite preprocess_input_outcome.
  unfold read_blood_pressure, Deriving.rejection_message. split.
  - destruct (Blood_Pressure data) as [s|]; [|reflexivity].
    intros [-> | Hc]; [reflexivity|].
    rewrite Hc. cbn [negb]. now rewrite orb_true_r.
  - intros s Hbp Hc. rewrite Hbp, Hc, (contains_nonempty _ _ Hc).
    cbn [orb negb]. now intros ->.
Qed.

Lemma blood_pressure_messages_witness :
  @preprocess_input Plain.externals
    (Examples.with_blood_pressure (Some "120") Examples.record_B)
    Examples.empty_world
  = (inr (Raise ValueError),
     Facts.shown Examples.empty_world [Error ErrBPFormat]).
Proof.
  apply (proj1 (@blood_pressure_messages Plain.externals
                  (Examples.with_blood_pressure (Some "120") Examples.record_B)
                  Examples.empty_world)).
  right. reflexivity.
Defined.

(** X8: what follows a second "/" is not looked at: when a blood
    pressure is accepted, the same text followed by "/" and anything
    at all is accepted with the same frame. *)
Theorem text_after_second_slash_ignored `{Externals}
        (data : InputRecord) (s t : string) (w : World) (df : DataFrame) :
  Blood_Pressure data = Some s ->
  preprocess_input data w = (inl df, w) ->
  preprocess_input
    (Examples.with_blood_pressure (Some (s ++ String "/" t)%string) data) w
  = (inl df, w).
Proof.
  intros Hbp. rewrite !preprocess_input_outcome.
  unfold read_blood_pressure. cbn [Examples.with_blood_pressure Blood_Pressure].
  rewrite Hbp, contains_app, split_app.
  destruct s as [|c s']; [discriminate|].
  set (s := String c s') in *.
  destruct (Py.contains "/" s) eqn:Hc; cbn [Py.falsy_str orb negb];
    [|discriminate].
  change (Py.falsy_str (s ++ String "/" t)%string) with false. cbn [orb negb].
  destruct (split_with_separator _ _ Hc) as (a & b & rest & ->).
  cbn [app].
  destruct (py_float a), (py_float b); try discriminate.
  intro Heq. injection Heq as <-. reflexivity.
Qed.

Lemma text_after_second_slash_ignored_witness :
  @preprocess_input Plain.externals
    (Examples.with_blood_pressure (Some ("120/80" ++ String "/" "abc")%string)
       Examples.record_B) Examples.empty_world
  = (inl (Spec.feature_vector Examples.record_B 120 80), Examples.empty_world).
Proof.
  apply (@text_after_second_slash_ignored Plain.externals Examples.record_B
           "120/80" "abc" Examples.empty_world
           (Spec.feature_vector Examples.record_B 120 80));
    reflexivity.
Defined.

(** X9: the occupation has no part in the outcome: changing it changes
    neither the frame nor the error. *)
Theorem occupation_is_ignored `{Externals} (data : InputRecord) (o : string)
        (w : World) :
  preprocess_input (Deriving.with_occupation o data) w = preprocess_input data w.
Proof.
  rewrite !preprocess_input_outcome. reflexivity.
Qed.

(** X10: a record sent by the form never has a usable gender code: its
    Gender column is NaN for both choices of the select box, while every
    BMI choice the form offers is mapped to its code 0, 1 or 2. *)
Theorem form_record_codes `{Externals} (f : FormValues) (x y : float) (w : World) :
  In (gender f) Deriving.gender_options ->
  In (bmi_category f) Deriving.bmi_options ->
  read_blood_pressure (form_record f) = Some (x, y) ->
  exists df,
    preprocess_input (form_record f) w = (inl df, w) /\
    Frame.getitem df "Gender" = Some (CFloat PrimFloat.nan) /\
    Frame.getitem df "BMI Category"
    = Some (CInt (Spec.BMICode (bmi_category f))) /\
    0 <= Spec.BMICode (bmi_category f) <= 2.
Proof.
  intros Hg Hb Hread. exists (derived_frame (form_record f) x y).
  split; [now apply preprocess_input_accepts|].
  unfold derived_frame, form_record, Deriving.gender_options,
    Deriving.bmi_options in *.
  cbn [Gender BMI_Category Frame.getitem String.eqb Ascii.eqb Bool.eqb In] in *.
  destruct Hg as [<-|[<-|[]]];
    destruct Hb as [<-|[<-|[<-|[<-|[]]]]];
    repeat split; cbn; lia || discriminate.
Qed.

Lemma form_record_codes_witness :
  exists df,
    @preprocess_input Plain.externals (form_record Examples.form_A)
      Examples.empty_world = (inl df, Examples.empty_world) /\
    Frame.getitem df "Gender" = Some (CFloat PrimFloat.nan) /\
    Frame.getitem df "BMI Category" = Some (CInt (Spec.BMICode "Obese")) /\
    0 <= Spec.BMICode "Obese" <= 2.
Proof.
  apply (@form_record_codes Plain.externals Examples.form_A 120 80
           Examples.empty_world).
  - left. reflexivity.
  - right; right; right; left. reflexivity.
  - reflexivity.
Defined.

Lemma predict_insomnia_outcome `{Externals} (model : Model)
      (data : InputRecord) (w : World) :
  predict_insomnia model data w =
    match read_blood_pressure data with
    | Some (x, y) =>
        match model_predict model (derived_frame data x y),
              model_predict_proba model (derived_frame data x y) with
        | Some p, Some pp => (inl (Some p, Some pp), w)
        | _, _ => (inl (None, None), Facts.shown w [Error ErrPrediction])
        end
    | None =>
        (inl (None, None),
         Facts.shown w [Error (Deriving.rejection_message data);
                        Error ErrPrediction])
    end.
Proof.
  unfold predict_insomnia, try_except, bind.
  rewrite preprocess_input_outcome.
  destruct (read_blood_pressure data) as [[x y]|].
  - cbn. destruct (model_predict model _); cbn; [|reflexivity].
    destruct (model_predict_proba model _); reflexivity.
  - unfold Facts.shown. cbn. now rewrite <- app_assoc.
Qed.

(** X11: the classifier path gives all or nothing: either the
    classifier's prediction and probabilities for the derived frame,
    with nothing shown, or (None, None) with the prediction error as the
    last message; it never raises and never touches the session; a
    rejected blood pressure shows its own message first. *)
Theorem predict_insomnia_all_or_nothing `{Externals} (model : Model)
        (data : InputRecord) (w : World) :
  (exists p pp x y,
      predict_insomnia model data w = (inl (Some p, Some pp), w) /\
      read_blood_pressure data = Some (x, y) /\
      model_predict model (derived_frame data x y) = Some p /\
      model_predict_proba model (derived_frame data x y) = Some pp) \/
  (exists es,
      predict_insomnia model data w
      = (inl (None, None), Facts.shown w (es ++ [Error ErrPrediction])) /\
      (read_blood_pressure data = None ->
       es = [Error (Deriving.rejection_message data)])).
Proof.
  rewrite predict_insomnia_outcome.
  destruct (read_blood_pressure data) as [[x y]|].
  - destruct (model_predict model _) as [p|] eqn:Hp;
      [destruct (model_predict_proba model _) as [pp|] eqn:Hpp|].
    + left. exists p, pp, x, y. repeat split; assumption.
    + right. exists []. split; [reflexivity|discriminate].
    + right. exists []. split; [reflexivity|discriminate].
  - right. exists [Error (Deriving.rejection_message data)].
    split; reflexivity.
Qed.

(** ** The form's checks *)

Lemma kept_cons (a : ascii) (o : string) :
  Flow.kept (String a o) =
    if Ascii.eqb a " " || Ascii.eqb a "-" || Ascii.eqb a "."
    then Flow.kept o else String a (Flow.kept o).
Proof.
  unfold Flow.kept. cbn [Py.remove].
  destruct (Ascii.eqb a " "); [reflexivity|]. cbn [Py.remove].
  destruct (Ascii.eqb a "-"); [reflexivity|]. cbn [Py.remove].
  now destruct (Ascii.eqb a ".").
Qed.

Lemma punctuation_is_no_letter (a : ascii) :
  Ascii.eqb a " " || Ascii.eqb a "-" || Ascii.eqb a "." = true ->
  Py.isletter a = false.
Proof.
  intro Hp. apply orb_true_iff in Hp. destruct Hp as [Hp|Hp];
    [apply orb_true_iff in Hp; destruct Hp as [Hp|Hp]|];
    apply Ascii.eqb_eq in Hp; subst; reflexivity.
Qed.

Lemma all_letters_kept (o : string) :
  Py.all_letters (Flow.kept o) = Flow.all_allowed o.
Proof.
  induction o as [|a o IH]; [reflexivity|].
  rewrite kept_cons. cbn [Flow.all_allowed]. unfold Flow.allowed_in_occupation.
  destruct (Ascii.eqb a " " || Ascii.eqb a "-" || Ascii.eqb a ".") eqn:Hp.
  - rewrite IH. rewrite (punctuation_is_no_letter a Hp).
    rewrite <- !orb_assoc in *. cbn [orb]. rewrite Hp. reflexivity.
  - cbn [Py.all_letters]. rewrite IH.
    apply orb_false_iff in Hp. destruct Hp as [Hp H3].
    apply orb_false_iff in Hp. destruct Hp as [H1 H2].
    rewrite H1, H2, H3, !orb_false_r. reflexivity.
Qed.

Lemma nonempty_kept (o : string) :
  Flow.all_allowed o = true ->
  Py.falsy_str (Flow.kept o) = negb (Flow.has_letter o).
Proof.
  induction o as [|a o IH]; [reflexivity|].
  cbn [Flow.all_allowed Flow.has_letter]. intro Ha.
  apply andb_true_iff in Ha. destruct Ha as [Ha Hrest].
  rewrite kept_cons.
  destruct (Ascii.eqb a " " || Ascii.eqb a "-" || Ascii.eqb a ".") eqn:Hp.
  - rewrite (punctuation_is_no_letter a Hp). cbn [orb]. now apply IH.
  - unfold Flow.allowed_in_occupation in Ha.
    rewrite <- !orb_assoc in Ha. rewrite <- !orb_assoc in Hp.
    destruct (Py.isletter a); [reflexivity|]. cbn [orb] in Ha. congruence.
Qed.

Lemma letters_pass_isalpha (o : string) :
  Flow.all_allowed o = true -> Flow.has_letter o = true ->
  Py.ascii_isalpha (Flow.kept o) = true.
Proof.
  intros Hall Hlet.
  pose proof (all_letters_kept o) as Ha. rewrite Hall in Ha.
  pose proof (nonempty_kept o Hall) as Hn. rewrite Hlet in Hn.
  unfold Py.ascii_isalpha.
  destruct (Flow.kept o); [discriminate|exact Ha].
Qed.

Lemma has_letter_contains (o : string) :
  Flow.has_letter o = true ->
  exists a, Py.contains a o = true /\ Py.isletter a = true.
Proof.
  induction o as [|b o IH]; cbn; [discriminate|].
  destruct (Py.isletter b) eqn:Hb; cbn.
  - intros _. exists b. now rewrite Ascii.eqb_refl.
  - intro Hl. destruct (IH Hl) as (a & Hc & Ha). exists a.
    split; [|exact Ha]. now destruct (Ascii.eqb b a).
Qed.

(** An occupation of ASCII letters, spaces, hyphens and periods with a
    letter among them passes the two checks of lines 499 and 504. *)
Lemma occupation_checks `{Externals} (o : string) :
  Flow.all_allowed o = true -> Flow.has_letter o = true ->
  Py.falsy_str o || (py_strip o =? "")%string = false /\
  py_isalpha (Flow.kept o) = true.
Proof.
  intros Hall Hlet. split.
  - destruct (has_letter_contains o Hlet) as (a & Hc & Ha).
    pose proof (py_strip_letter o a Hc Ha) as Hs.
    apply String.eqb_neq in Hs. rewrite Hs.
    destruct o; [discriminate|reflexivity].
  - apply py_isalpha_ascii. now apply letters_pass_isalpha.
Qed.

Lemma when_guard (c : bool) (m : Message) (k : Script unit) (w : World) :
  (when c (st_error m ;; signal Return) ;; k) w
  = if c then (inr Return, Facts.shown w [Error m]) else k w.
Proof. destruct c; reflexivity. Qed.

(** A submitted form is turned down with one message, or stored. *)
Lemma submit_form_rejects_or_stores `{Externals} (f : FormValues) (w : World) :
  (exists m, submit_form f w = (inr Return, Facts.shown w [Error m])) \/
  submit_form f w =
    (inr Rerun,
     {| session := {| ss_started := ss_started (session w);
                      ss_page := Some result;
                      ss_input_data := Some (form_record f) |};
        screen := screen w |}).
Proof.
  unfold submit_form. rewrite !when_guard.
  repeat match goal with
         | |- context [if ?c then (inr Return, _) else _] =>
             destruct c; [left; eexists; reflexivity|]
         end.
  right. reflexivity.
Qed.

(** What the checks have established when the form is stored. *)
Lemma stored_form_is_checked `{Externals} (f : FormValues) (w : World) :
  fst (submit_form f w) = inr Rerun -> Flow.checked (form_record f).
Proof.
  unfold submit_form. rewrite !when_guard.
  repeat match goal with
         | |- context [if ?c then (inr Return, _) else _] =>
             let Hc := fresh "Hc" in
             destruct c eqn:Hc; [discriminate|]
         end.
  intros _.
  repeat match goal with
         | Hx : _ || _ = false |- _ =>
             apply orb_false_iff in Hx; destruct Hx
         end.
  repeat match goal with
         | Hx : negb ?b = false |- _ => apply negb_false_iff in Hx
         | Hx : (_ =? _)%string = false |- _ => apply String.eqb_neq in Hx
         end.
  unfold Flow.checked, Flow.kept, form_record; cbn.
  repeat match goal with
         | Hx : (_ =? _) = false |- _ => apply Z.eqb_neq in Hx
         | Hx : (_ <? _) = false |- _ => apply Z.ltb_ge in Hx
         | Hx : (_ >? _) = false |- _ => rewrite Z.gtb_ltb in Hx
         end.
  repeat split; try lia; try tauto; try assumption;
    try (intro He; rewrite He in *; discriminate).
  exists (blood_pressure f). split; [reflexivity|assumption].
Qed.

(** X12: a submitted form has two outcomes only.  Either one check
    fails: exactly one error message is shown, the script returns and
    the session is as it was, so nothing is stored and nothing scored.
    Or the record is stored, the result page is set and a rerun is asked
    for, and then the record has its age in 18..100, heart rate in
    40..200, steps in 1000..20000, an occupation that is not empty, does
    not strip to the empty string and is alphabetic to [str.isalpha]
    once its spaces, hyphens and periods are taken out, and a blood
    pressure with a "/". *)
Theorem submit_form_outcomes `{Externals} (f : FormValues) (w : World) :
  (exists m, submit_form f w = (inr Return, Facts.shown w [Error m])) \/
  (submit_form f w =
     (inr Rerun,
      {| session := {| ss_started := ss_started (session w);
                       ss_page := Some result;
                       ss_input_data := Some (form_record f) |};
         screen := screen w |}) /\
   Flow.checked (form_record f)).
Proof.
  destruct (submit_form_rejects_or_stores f w) as [Hrej|Hsto].
  - left. exact Hrej.
  - right. split; [exact Hsto|].
    apply (stored_form_is_checked f w). now rewrite Hsto.
Qed.

(** ** Float order, from the specification of the primitive floats *)

Lemma SFcompare_antisym (x y : spec_float) (c : comparison) :
  SFcompare x y = Some c -> SFcompare y x = Some (CompOpp c).
Proof.
  destruct x as [sx|sx| |sx mx ex], y as [sy|sy| |sy my ey]; cbn;
    try discriminate;
    try (intro Hc; injection Hc as <-; try destruct sx; try destruct sy;
         reflexivity).
  intro Hc. injection Hc as <-. f_equal.
  destruct sx, sy; try reflexivity;
    rewrite (Z.compare_antisym ex ey); destruct (ex ?= ey)%Z; cbn;
    try reflexivity;
    now rewrite (Pos.compare_cont_antisym mx my Eq).
Qed.

Lemma leb_not_gtb (x y : float) : (x <=? y)%float = true -> (y <? x)%float = false.
Proof.
  rewrite leb_spec, ltb_spec. unfold SFleb, SFltb.
  destruct (SFcompare (Prim2SF x) (Prim2SF y)) as [c|] eqn:Hc; [|discriminate].
  rewrite (SFcompare_antisym _ _ _ Hc). now destruct c.
Qed.

Lemma three_or_more_is_not_zero (x : float) :
  (3 <=? x)%float = true -> (x =? 0)%float = false.
Proof.
  rewrite leb_spec, eqb_spec. unfold SFleb, SFeqb.
  change (Prim2SF 0) with (S754_zero false).
  change (Prim2SF 3) with (S754_finite false 6755399441055744 (-51)).
  destruct (Prim2SF x) as [s|s| |s m e]; cbn; try discriminate.
  - now destruct s.
  - destruct s; [discriminate|reflexivity].
Qed.

(** X13: for the values the widgets can hold, the checks on age, sleep
    duration, heart rate and steps never fire: a submission is accepted
    as soon as the occupation is made of letters, spaces, hyphens and
    periods with at least one letter and the blood pressure holds a
    "/", and the only messages there can be are the four about an empty
    field, the occupation and the blood pressure. *)
Theorem widget_values_and_checks `{Externals} (f : FormValues) (w : World) :
  Flow.widget_domain f ->
  (Flow.all_allowed (occupation f) = true ->
   Flow.has_letter (occupation f) = true ->
   Py.contains "/" (blood_pressure f) = true ->
   fst (submit_form f w) = inr Rerun) /\
  (forall m,
      submit_form f w = (inr Return, Facts.shown w [Error m]) ->
      In m [ErrIncomplete; ErrOccupationEmpty; ErrOccupationLetters; ErrBPForm]).
Proof.
  intros (Hg & Ha & (Hs1 & Hs2) & Hq & Hp & Ht & Hb & Hh & Hd).
  assert (Hgender : Py.falsy_str (gender f) = false).
  { unfold Deriving.gender_options in Hg. cbn [In] in Hg.
    destruct Hg as [<-|[<-|[]]]; reflexivity. }
  assert (Hbmi : Py.falsy_str (bmi_category f) = false).
  { unfold Deriving.bmi_options in Hb. cbn [In] in Hb.
    destruct Hb as [<-|[<-|[<-|[<-|[]]]]]; reflexivity. }
  pose proof (three_or_more_is_not_zero _ Hs1) as Hz.
  pose proof (leb_not_gtb _ _ Hs1) as Hlo.
  pose proof (leb_not_gtb _ _ Hs2) as Hhi.
  assert (Hnum : (age f =? 0) = false /\ (quality_of_sleep f =? 0) = false /\
                 (physical_activity f =? 0) = false /\
                 (stress_level f =? 0) = false /\ (heart_rate f =? 0) = false /\
                 (daily_steps f =? 0) = false /\
                 (age f <? 18) = false /\ (age f >? 100) = false /\
                 (heart_rate f <? 40) = false /\ (heart_rate f >? 200) = false /\
                 (daily_steps f <? 1000) = false /\
                 (daily_steps f >? 20000) = false).
  { rewrite !Z.gtb_ltb, !Z.eqb_neq, !Z.ltb_ge. lia. }
  destruct Hnum as (N1 & N2 & N3 & N4 & N5 & N6 & N7 & N8 & N9 & N10 & N11 & N12).
  unfold submit_form. rewrite !when_guard.
  rewrite Hgender, Hbmi, Hz, Hlo, Hhi, N1, N2, N3, N4, N5, N6, N7, N8, N9,
    N10, N11, N12.
  cbn [orb]. rewrite !orb_false_r.
  split.
  - intros Hall Hlet Hbp.
    destruct (occupation_checks (occupation f) Hall Hlet) as [Ho1 Ho2].
    unfold Flow.kept in Ho2.
    apply orb_false_iff in Ho1. destruct Ho1 as [Ho1 Ho3].
    rewrite Ho1, Ho3, Ho2, Hbp, (contains_nonempty _ _ Hbp). reflexivity.
  - intros m.
    repeat match goal with
           | |- context [if ?c then (inr Return, Facts.shown w [Error ?e]) else _] =>
               destruct c;
               [intro He; injection He as He; apply app_inv_head in He;
                injection He as <-; cbn; tauto|]
           end.
    discriminate.
Qed.

Lemma widget_values_and_checks_witness :
  fst (@submit_form Plain.externals Examples.form_A Examples.empty_world)
  = inr Rerun.
Proof.
  apply (proj1 (@widget_values_and_checks Plain.externals Examples.form_A
                  Examples.empty_world
                  ltac:(unfold Flow.widget_domain; cbn;
                        repeat split; try lia; tauto)));
    reflexivity.
Defined.

(** ** The page flow *)

Section PageFlow.

Context `{Externals}.

(** A run before the start flag is set. *)
Lemma welcome_run (artifact : option Model) (ui : Widgets) (ss : SessionState) :
  ss_started ss <> Some true ->
  script_run artifact ui ss =
    (inr Return,
     {| session := {| ss_started := Some (btn_mulai ui);
                      ss_page := ss_page ss;
                      ss_input_data := ss_input_data ss |};
        screen := [WelcomeScreen] |}).
Proof.
  intro Hs. unfold script_run, main.
  destruct ss as [[[|]|] pg dt]; cbn; [now elim Hs| |];
    destruct (btn_mulai ui); reflexivity.
Qed.

(** X14: until the start button has been clicked a run shows the
    welcome screen and nothing else, whatever was clicked or stored and
    whether or not the classifier loads (it is not even asked for); the
    click itself only sets the flag, so the run of the click still ends
    on the welcome screen. *)
Theorem welcome_gate (artifact : option Model) (ui : Widgets) (ss : SessionState) :
  ss_started ss <> Some true ->
  script_run artifact ui ss =
    (inr Return,
     {| session := {| ss_started := Some (btn_mulai ui);
                      ss_page := ss_page ss;
                      ss_input_data := ss_input_data ss |};
        screen := [WelcomeScreen] |}) /\
  interaction artifact ui ss = snd (script_run artifact ui ss).
Proof.
  intro Hs. unfold interaction.
  rewrite (welcome_run artifact ui ss Hs). split; reflexivity.
Qed.

(** Past the gates, a run renders the page of [Flow.page_after]. *)
Lemma main_dispatch (model : Model) (ui : Widgets) (ss : SessionState) :
  ss_started ss = Some true ->
  script_run (Some model) ui ss =
    (let w := {| session := {| ss_started := Some true;
                               ss_page := Some (Flow.page_after ui (ss_page ss));
                               ss_input_data := ss_input_data ss |};
                 screen := [AppHeader; SidebarMenu] |} in
     match Flow.page_after ui (ss_page ss) with
     | home => (show FormPage ;; when (submit ui) (submit_form (form ui))) w
     | result => result_page (Some model) ui w
     | info => show InfoPage w
     | credit => show CreditPage w
     end).
Proof.
  intro Hs. destruct ss as [st pg dt]. cbn in Hs. subst st.
  unfold script_run, main, Flow.page_after. cbn [ss_page ss_input_data].
  destruct (btn_home ui), (btn_info ui), (btn_credit ui), pg as [[| | |]|];
    reflexivity.
Qed.

(** X15: the sidebar decides the page before anything is rendered: the
    Info and Credits pages show their text under the header and the
    menu, store the page, keep the stored record and never show a
    result or ask for a rerun. *)
Theorem info_and_credit_pages (model : Model) (ui : Widgets) (ss : SessionState)
        (p : Page) :
  ss_started ss = Some true ->
  Flow.page_after ui (ss_page ss) = p ->
  p = info \/ p = credit ->
  interaction (Some model) ui ss =
    {| session := {| ss_started := Some true; ss_page := Some p;
                     ss_input_data := ss_input_data ss |};
       screen := [AppHeader; SidebarMenu;
                  match p with info => InfoPage | _ => CreditPage end] |}.
Proof.
  intros Hs Hp Hic. unfold interaction.
  rewrite (main_dispatch model ui ss Hs). cbv zeta. rewrite Hp.
  destruct Hic as [-> | ->]; reflexivity.
Qed.

End PageFlow.

Section Runs.

Context `{Externals}.

(** The result page, run on a world whose session holds [dt]. *)
Lemma result_page_run (model : Model) (ui : Widgets) (w : World) :
  exists es,
    result_page (Some model) ui w =
      (if btn_kembali ui then inr Rerun else inl tt,
       {| session := if btn_kembali ui
                     then {| ss_started := ss_started (session w);
                             ss_page := Some home;
                             ss_input_data := ss_input_data (session w) |}
                     else session w;
          screen := screen w ++ es |}) /\
    es = match ss_input_data (session w) with
         | Some d => Spec.result_screen (predict_insomnia_rule_based d)
         | None => []
         end.
Proof.
  unfold result_page, bind, get_session. cbn.
  destruct (ss_input_data (session w)) as [d|] eqn:Hd.
  - exists (Spec.result_screen (predict_insomnia_rule_based d)).
    split; [|reflexivity].
    unfold load_model, ret.
    pose proof (display_results_scorer d w) as Hshow.
    destruct (predict_insomnia_rule_based d) as [prediction proba].
    cbn [fst snd] in Hshow. rewrite Hshow. cbn [session screen].
    destruct (btn_kembali ui); cbn; [rewrite Hd|]; reflexivity.
  - exists []. split; [|reflexivity]. unfold ret. rewrite app_nil_r.
    destruct (btn_kembali ui); cbn; [rewrite Hd|destruct w]; reflexivity.
Qed.

(** One run, and what it does to the session. *)
Lemma run_keeps (artifact : option Model) (ui : Widgets) (ss : SessionState) :
  let ss' := session (snd (script_run artifact ui ss)) in
  (ss_started ss = Some true -> ss_started ss' = Some true) /\
  Session.keeps_record ui ss ss' /\
  (Session.well_formed ss -> Session.well_formed ss').
Proof.
  cbv zeta. unfold Session.keeps_record, Session.well_formed, Flow.stored_checked.
  destruct (ss_started ss) as [[|]|] eqn:Hs.
  2,3: rewrite (welcome_run artifact ui ss ltac:(congruence));
       cbn; (split; [discriminate|tauto]).
  destruct artifact as [model|];
    [|rewrite (main_without_artifact ui ss Hs); cbn; tauto].
  rewrite (main_dispatch model ui ss Hs). cbv zeta.
  destruct (Flow.page_after ui (ss_page ss)) eqn:Hp.
  - (* the form *)
    unfold bind, show. cbn.
    destruct (submit ui) eqn:Hsub; cbn.
    + match goal with
      | |- context [submit_form ?f ?w0] =>
          pose proof (stored_form_is_checked f w0) as Hchk;
          destruct (submit_form_rejects_or_stores f w0) as [(m & Hrej)|Hsto];
          [rewrite Hrej
          |rewrite Hsto in Hchk |- *; specialize (Hchk eq_refl)]
      end; cbn; intuition (auto; congruence).
    + intuition (auto; congruence).
  - (* the result page *)
    match goal with
    | |- context [result_page _ _ ?w0] =>
        destruct (result_page_run model ui w0) as (es & -> & _)
    end.
    cbn. destruct (btn_kembali ui); cbn; [intuition (auto; congruence)|].
    unfold Flow.page_after in Hp.
    destruct (btn_credit ui), (btn_info ui), (btn_home ui); try discriminate.
    destruct (ss_page ss) as [pg|]; [|discriminate]. subst pg.
    intuition (auto; congruence).
  - cbn. intuition (auto; congruence).
  - cbn. intuition (auto; congruence).
Qed.

End Runs.

Section Interactions.

Context `{Externals}.

Lemma interaction_keeps (artifact : option Model) (ui : Widgets)
      (ss : SessionState) :
  let ss' := session (interaction artifact ui ss) in
  (ss_started ss = Some true -> ss_started ss' = Some true) /\
  Session.keeps_record ui ss ss' /\
  (Session.well_formed ss -> Session.well_formed ss').
Proof.
  cbv zeta. unfold interaction.
  pose proof (run_keeps artifact ui ss) as (Hs1 & Hk1 & Hw1).
  destruct (script_run artifact ui ss) as [[[]|[e| |]] w1]; cbn [snd] in *.
  1-3: exact (conj Hs1 (conj Hk1 Hw1)).
  pose proof (run_keeps artifact (no_clicks ui) (session w1)) as (Hs2 & Hk2 & Hw2).
  split; [intro; now apply Hs2, Hs1|split; [|intro; now apply Hw2, Hw1]].
  unfold Session.keeps_record in *. cbn [no_clicks submit] in Hk2.
  destruct Hk2 as [Hk2|[Hk2 _]]; [|discriminate].
  rewrite Hk2. exact Hk1.
Qed.

(** X16: in any history of interactions from a fresh browser session,
    with or without the classifier, the session stays well formed: the
    record it stores, if any, came through the form's checks (age in
    18..100, heart rate in 40..200, steps in 1000..20000, an occupation
    that [str.isalpha] accepts once its spaces, hyphens and periods are
    taken out, a blood pressure with a "/"), and the result page is set
    only while a record is stored, so its test for a missing record
    never fails. *)
Theorem every_session_is_well_formed (artifact : option Model)
        (uis : list Widgets) :
  Session.well_formed (Session.play artifact uis Session.initial).
Proof.
  assert (Hgen : forall ss, Session.well_formed ss ->
                            Session.well_formed (Session.play artifact uis ss)).
  { induction uis as [|ui rest IH]; intros ss Hss; [exact Hss|].
    cbn [Session.play]. apply IH. now apply interaction_keeps. }
  apply Hgen. split; [exact I|discriminate].
Qed.

(** X17: once the start button took effect the welcome screen never
    comes back, and a stored record is never erased: an interaction
    leaves it as it is or replaces it by the record of the form that
    was just submitted. *)
Theorem started_and_stored (artifact : option Model) (ui : Widgets)
        (ss : SessionState) :
  (ss_started ss = Some true ->
   ss_started (session (interaction artifact ui ss)) = Some true) /\
  (ss_input_data (session (interaction artifact ui ss)) = ss_input_data ss \/
   (submit ui = true /\
    ss_input_data (session (interaction artifact ui ss))
    = Some (form_record (form ui)))).
Proof.
  pose proof (interaction_keeps artifact ui ss) as (Hs & Hk & _).
  split; assumption.
Qed.

Lemma no_result_in (es : list Event) :
  forallb (fun e => match e with PredictionBox _ => false | _ => true end) es
  = true ->
  ~ Spec.shows_result es.
Proof.
  intros Hall (label & Hin).
  rewrite forallb_forall in Hall. now specialize (Hall _ Hin).
Qed.

(** X18: a result on the screen is always the scorer's result for a
    record that came through the form's checks: in a well-formed
    session no interaction shows a result for anything else. *)
Theorem shown_result_is_checked (artifact : option Model) (ui : Widgets)
        (ss : SessionState) :
  Session.well_formed ss ->
  Spec.shows_result (screen (interaction artifact ui ss)) ->
  exists d,
    Flow.checked d /\
    ss_input_data (session (interaction artifact ui ss)) = Some d /\
    screen (interaction artifact ui ss)
    = [AppHeader; SidebarMenu]
        ++ Spec.result_screen (predict_insomnia_rule_based d).
Proof.
  intros (Hchk & Hres) Hshow.
  destruct (ss_started ss) as [[|]|] eqn:Hs.
  2,3: (unfold interaction in Hshow;
        rewrite (welcome_run artifact ui ss ltac:(congruence)) in Hshow;
        now apply no_result_in in Hshow).
  destruct artifact as [model|];
    [|now apply no_artifact_no_result in Hshow].
  revert Hshow. unfold interaction.
  rewrite (main_dispatch model ui ss Hs). cbv zeta.
  destruct (Flow.page_after ui (ss_page ss)) eqn:Hp.
  - (* the form *)
    unfold bind, show. cbn -[script_run].
    destruct (submit ui) eqn:Hsub; cbn -[script_run];
      [|intro Hshow; now apply no_result_in in Hshow].
    match goal with
    | |- context [submit_form ?f ?w0] =>
        pose proof (stored_form_is_checked f w0) as Hf;
        destruct (submit_form_rejects_or_stores f w0) as [(m & Hrej)|Hsto];
        [rewrite Hrej
        |rewrite Hsto in Hf |- *; specialize (Hf eq_refl)]
    end; [intro Hshow; now apply no_result_in in Hshow|].
    cbn [session snd].
    rewrite (main_dispatch model (no_clicks ui)) by reflexivity. cbv zeta.
    cbn [Flow.page_after no_clicks btn_credit btn_info btn_home ss_page].
    match goal with
    | |- context [result_page _ _ ?w0] =>
        destruct (result_page_run model (no_clicks ui) w0) as (es & -> & ->)
    end.
    cbn. intros _. exists (form_record (form ui)). auto.
  - (* the result page *)
    match goal with
    | |- context [result_page _ _ ?w0] =>
        destruct (result_page_run model ui w0) as (es & -> & ->)
    end.
    cbn [session ss_input_data screen].
    destruct (btn_kembali ui).
    + rewrite (main_dispatch model (no_clicks ui)) by reflexivity.
      cbn. intro Hshow. now apply no_result_in in Hshow.
    + cbn. unfold Flow.stored_checked in Hchk.
      destruct (ss_input_data ss) as [d|];
        [|intro Hshow; now apply no_result_in in Hshow].
      intros _. exists d. auto.
  - cbn. intro Hshow. now apply no_result_in in Hshow.
  - cbn. intro Hshow. now apply no_result_in in Hshow.
Qed.

End Interactions.

Lemma started_and_stored_witness :
  ss_started (session (@interaction Plain.externals None Examples.back_click
                         Examples.result_session)) = Some true.
Proof.
  apply (proj1 (@started_and_stored Plain.externals None Examples.back_click
                  Examples.result_session)).
  reflexivity.
Defined.

Lemma record_A_checked : @Flow.checked Plain.externals Examples.record_A.
Proof.
  unfold Flow.checked. cbn.
  repeat split; try lia; try discriminate.
  exists "120/80". split; reflexivity.
Qed.

Lemma shown_result_is_checked_witness :
  exists d,
    @Flow.checked Plain.externals d /\
    ss_input_data (session (@interaction Plain.externals (Some tt)
                              (no_clicks Examples.submit_A)
                              Examples.result_session)) = Some d /\
    screen (@interaction Plain.externals (Some tt) (no_clicks Examples.submit_A)
              Examples.result_session)
    = [AppHeader; SidebarMenu]
        ++ Spec.result_screen (predict_insomnia_rule_based d).
Proof.
  apply (@shown_result_is_checked Plain.externals (Some tt)
           (no_clicks Examples.submit_A) Examples.result_session).
  - split; [exact record_A_checked|discriminate].
  - exists 1. cbn. tauto.
Defined.

(** X19: the back button of the result page leads to the form: the run
    of the click is replaced by one that renders the form under the
    header and the menu, with the form as the session's page and the
    stored record still in place. *)
Theorem back_to_the_form `{Externals} (model : Model) (ui : Widgets)
        (ss : SessionState) :
  ss_started ss = Some true ->
  Flow.page_after ui (ss_page ss) = result ->
  btn_kembali ui = true ->
  interaction (Some model) ui ss =
    {| session := {| ss_started := Some true; ss_page := Some home;
                     ss_input_data := ss_input_data ss |};
       screen := [AppHeader; SidebarMenu; FormPage] |}.
Proof.
  intros Hs Hp Hk. unfold interaction.
  rewrite (main_dispatch model ui ss Hs). cbv zeta. rewrite Hp.
  match goal with
  | |- context [result_page _ _ ?w0] =>
      destruct (result_page_run model ui w0) as (es & -> & _)
  end.
  rewrite Hk. cbn [session snd ss_started ss_input_data].
  rewrite (main_dispatch model (no_clicks ui)) by reflexivity.
  reflexivity.
Qed.

Lemma back_to_the_form_witness :
  @interaction Plain.externals (Some tt) Examples.back_click
    Examples.result_session =
    {| session := {| ss_started := Some true; ss_page := Some home;
                     ss_input_data := Some Examples.record_A |};
       screen := [AppHeader; SidebarMenu; FormPage] |}.
Proof.
  apply (@back_to_the_form Plain.externals tt Examples.back_click
           Examples.result_session); reflexivity.
Defined.

(** X20: the form's checks and the deriver's agree on the shape of the
    blood pressure but not on its content: for a record that came
    through the form's checks [preprocess_input] never shows the message
    about the format; it returns the frame or shows the message about
    numbers, which the form's checks do not rule out. *)
Theorem checked_record_and_deriver `{Externals} (d : InputRecord) (w : World) :
  Flow.checked d ->
  (exists x y, preprocess_input d w = (inl (derived_frame d x y), w)) \/
  preprocess_input d w
  = (inr (Raise ValueError), Facts.shown w [Error ErrBPNumeric]).
Proof.
  intros (_ & _ & _ & _ & _ & _ & _ & _ & (s & Hbp & Hc) & _).
  rewrite preprocess_input_outcome.
  destruct (read_blood_pressure d) as [[x y]|] eqn:Hread.
  - left. now exists x, y.
  - right. unfold Deriving.rejection_message.
    now rewrite Hbp, Hc, (contains_nonempty _ _ Hc).
Qed.

Lemma checked_record_and_deriver_witness :
  (exists x y,
      @preprocess_input Plain.externals MoreExamples.record_words
        Examples.empty_world
      = (inl (derived_frame MoreExamples.record_words x y), Examples.empty_world))
  \/ @preprocess_input Plain.externals MoreExamples.record_words
       Examples.empty_world
     = (inr (Raise ValueError),
        Facts.shown Examples.empty_world [Error ErrBPNumeric]).
Proof.
  apply (@checked_record_and_deriver Plain.externals MoreExamples.record_words
           Examples.empty_world).
  unfold Flow.checked. cbn.
  repeat split; try lia; try discriminate.
  exists "abc/def". split; reflexivity.
Defined.

Lemma info_and_credit_pages_witness :
  @interaction Plain.externals (Some tt)
    {| btn_mulai := false; btn_home := false; btn_info := true;
       btn_credit := false; submit := false; btn_kembali := false;
       form := Examples.form_A |} Examples.result_session =
    {| session := {| ss_started := Some true; ss_page := Some info;
                     ss_input_data := Some Examples.record_A |};
       screen := [AppHeader; SidebarMenu; InfoPage] |}.
Proof.
  apply (@info_and_credit_pages Plain.externals tt _ Examples.result_session
           info); auto.
Defined.

Lemma welcome_gate_witness :
  @script_run Plain.externals None Examples.submit_A Session.initial =
    (inr Return,
     {| session := {| ss_started := Some false; ss_page := None;
                      ss_input_data := None |};
        screen := [WelcomeScreen] |}).
Proof.
  apply (proj1 (@welcome_gate Plain.externals None Examples.submit_A
                  Session.initial ltac:(discriminate))).
Defined.
